(** * rsimusim.dataset: dataset construction from a reconstruction and a gyro stream

    A shallow embedding of [rsimusim/dataset.py].

    - a numpy float is the rational it denotes ([Q]) and its arithmetic is
      exact, with [np.isclose] and [np.allclose] at numpy's default
      tolerances; where a rounded result decides which camera or which
      sample is taken, the rounding is written out: the alignment step
      computes with the rounding [fl] of its collaborators, and the
      resampling has a rounded refinement beside the exact functions
      ([binary64] is the IEEE rounding itself);
    - Python exceptions are values of [exn]; a method that mutates [self]
      is a function from the object's state to the state it leaves behind
      together with its outcome, so that what a failed call has already
      written stays visible;
    - the numeric collaborators (slerp, the gyro integrator, quaternion
      continuity correction) and the spline fitting are opaque. *)

From Stdlib Require Import String ZArith QArith Qabs List Bool Lia Lqa.
From Stdlib Require Import Permutation Sorted DecimalString.
Import ListNotations.

Set Implicit Arguments.

(** ** Exceptions and outcomes *)

Inductive exn : Type :=
| DatasetError (msg : string)
| IndexError
| AttributeError
| TypeError
| ZeroDivisionError
| ValueError
| KeyError.

Inductive result (A : Type) : Type :=
| Ok (a : A)
| Raise (e : exn).

Arguments Ok {A} a.
Arguments Raise {A} e.

(** A method on an object of state [S]: the state after the call is
    returned also when the call raises. *)
Definition Method (S A : Type) : Type := S -> S * result A.

Class Monad (M : Type -> Type) : Type := {
  ret : forall {A}, A -> M A;
  bind : forall {A B}, M A -> (A -> M B) -> M B
}.

#[export] Instance result_Monad : Monad result := {
  ret := fun A a => Ok a;
  bind := fun A B m k => match m with Ok a => k a | Raise e => Raise e end
}.

#[export] Instance Method_Monad (S : Type) : Monad (Method S) := {
  ret := fun A a s => (s, Ok a);
  bind := fun A B m k s =>
    match m s with
    | (s', Ok a) => k a s'
    | (s', Raise e) => (s', Raise e)
    end
}.

Declare Scope py_scope.
Delimit Scope py_scope with py.
Notation "x <- m ;; k" := (bind m (fun x => k))
  (at level 61, m at next level, right associativity) : py_scope.
Notation "m ;; k" := (bind m (fun _ => k))
  (at level 61, right associativity) : py_scope.
Local Open Scope py_scope.

Definition raise {S A : Type} (e : exn) : Method S A := fun s => (s, Raise e).
Definition get {S : Type} : Method S S := fun s => (s, Ok s).
Definition put {S : Type} (s : S) : Method S unit := fun _ => (s, Ok tt).
(** A pure, fallible computation run inside a method. *)
Definition lift {S A : Type} (r : result A) : Method S A := fun s => (s, r).

(** ** Python and numpy primitives *)

(** [l[i]]: a negative index counts from the end. *)
Definition py_index {A : Type} (l : list A) (i : Z) : result A :=
  let n := Z.of_nat (length l) in
  let j := if (i <? 0)%Z then (i + n)%Z else i in
  if ((0 <=? j) && (j <? n))%Z then
    match nth_error l (Z.to_nat j) with
    | Some a => Ok a
    | None => Raise IndexError
    end
  else Raise IndexError.

(** [l[i:]] for a non-negative [i]. *)
Definition py_slice_from {A : Type} (l : list A) (i : Z) : list A :=
  skipn (Z.to_nat i) l.

Fixpoint flatnonzero_from (k : Z) (mask : list bool) : list Z :=
  match mask with
  | [] => []
  | b :: m =>
      if b then k :: flatnonzero_from (k + 1) m
      else flatnonzero_from (k + 1) m
  end.

(** [np.flatnonzero]: the indices at which the mask holds, ascending. *)
Definition flatnonzero (mask : list bool) : list Z := flatnonzero_from 0 mask.

Definition Qge_bool (x y : Q) : bool := Qle_bool y x.
Definition Qgt_bool (x y : Q) : bool := negb (Qle_bool x y).

(** numpy's default tolerances. *)
Definition rtol : Q := 1 # 100000.
Definition atol : Q := 1 # 100000000.

(** [np.isclose(a, b)]: [|a - b| <= atol + rtol * |b|]. *)
Definition isclose (a b : Q) : bool :=
  Qle_bool (Qabs (a - b)) (atol + rtol * Qabs b).

(** [np.allclose(a, b)] for an array [a] and a scalar [b]. *)
Definition allclose (a : list Q) (b : Q) : bool :=
  forallb (fun x => isclose x b) a.

(** [np.diff]. *)
Fixpoint diff (l : list Q) : list Q :=
  match l with
  | x :: (y :: _) as t => (y - x) :: diff t
  | _ => []
  end.

(** [np.linspace(start, stop, num)]: the last sample is [stop] itself. *)
Definition linspace (start stop : Q) (num : nat) : list Q :=
  match num with
  | O => []
  | S O => [start]
  | S (S _ as div) =>
      let step := (stop - start) / inject_Z (Z.of_nat div) in
      map (fun i => inject_Z (Z.of_nat i) * step + start) (seq 0 div) ++ [stop]
  end.

(** [np.clip(x, lo, hi)]. *)
Definition clip (x lo hi : Q) : Q :=
  if Qle_bool x lo then lo else if Qle_bool hi x then hi else x.

(** [np.argmin]: the first index of a least element (0 on an empty list,
    where numpy raises; the callers index the array before). *)
Fixpoint argmin_from (k best : Z) (bestv : Q) (l : list Q) : Z :=
  match l with
  | [] => best
  | x :: t =>
      if Qgt_bool bestv x then argmin_from (k + 1) k x t
      else argmin_from (k + 1) best bestv t
  end.

Definition argmin (l : list Q) : Z :=
  match l with
  | [] => 0
  | x :: t => argmin_from 1 0 x t
  end.

(** [sorted(l, key=key)]: Python's sort is stable, so elements with equal
    keys keep their order; insertion before the first element whose key is
    not smaller gives that order. *)
Fixpoint insert_by {A : Type} (key : A -> Z) (a : A) (l : list A) : list A :=
  match l with
  | [] => [a]
  | b :: t => if (key a <=? key b)%Z then a :: l else b :: insert_by key a t
  end.

Definition sorted {A : Type} (key : A -> Z) (l : list A) : list A :=
  fold_right (insert_by key) [] l.

(** ** Data model *)

Record Quaternion : Type := mkQuaternion { qw : Q; qx : Q; qy : Q; qz : Q }.

(** [Quaternion.conjugate]. *)
Definition conjugate (q : Quaternion) : Quaternion :=
  mkQuaternion (qw q) (- qx q) (- qy q) (- qz q).

Definition Vec3 : Type := (Q * Q * Q)%type.

(** The reconstruction (structure-from-motion model): cameras and points. *)
Record Camera : Type := mkCamera {
  framenumber : Z;
  position : Vec3;
  orientation : Quaternion
}.

Record Point : Type := mkPoint { point_position : Vec3 }.

Record NvmModel : Type := mkNvmModel {
  cameras : list Camera;
  points : list Point
}.

(** A two-dimensional numpy array of shape [(length rows, ncols)]. *)
Record Array2 : Type := mkArray2 { ncols : nat; rows : list (list Q) }.

Definition shape (a : Array2) : nat * nat := (length (rows a), ncols a).

(** [np.array([q.w, q.x, q.y, q.z])] and back. *)
Definition unpack (q : Quaternion) : list Q := [qw q; qx q; qy q; qz q].
Definition pack (r : list Q) : Quaternion :=
  mkQuaternion (nth 0 r 0) (nth 1 r 0) (nth 2 r 0) (nth 3 r 0).

(** An [(N,4)] array of quaternion components, and [QuaternionArray(a)]. *)
Definition quaternion_rows (qs : list Quaternion) : Array2 :=
  mkArray2 4 (map unpack qs).
Definition QuaternionArray (a : Array2) : list Quaternion := map pack (rows a).

Record TimeSeries (V : Type) : Type := mkTimeSeries {
  timestamps : list Q;
  values : list V
}.

Record Landmark : Type := mkLandmark { lm_position : Vec3 }.

(** The three trajectory variants; the spline fitting behind them is a
    collaborator, so a trajectory is represented by what it was built from. *)
Inductive Trajectory : Type :=
| SplinedPositionTrajectory (pos : TimeSeries Vec3)
| SplinedRotationTrajectory (rot : TimeSeries Quaternion) (smoothRotations : bool)
| SplinedTrajectory (pos : TimeSeries Vec3) (rot : TimeSeries Quaternion)
    (smoothRotations : bool).

Record Dataset : Type := mkDataset {
  _position_data : option (TimeSeries Vec3);
  _orientation_data : option (TimeSeries Quaternion);
  trajectory : option Trajectory;
  landmarks : list Landmark
}.

(** [Dataset.__init__]. *)
Definition Dataset_init : Dataset := mkDataset None None None [].

(** ** Collaborators

    [crisp.rotations.slerp], [crisp.fastintegrate.integrate_gyro_quaternion_uniform]
    (an [(N,3)] array, the sample interval and an optional initial
    orientation to an [(N',4)] array, held here as its rows) and
    [QuaternionArray.unflipped] are libraries outside this repository. Of
    [unflipped] only that it keeps the number of samples is assumed.
    [fl] is the floating-point unit: the double that a binary64 operation
    returns for the exact result [x]. Nothing is assumed of it, so what is
    proved holds for exact arithmetic ([fl x = x]) and for IEEE rounding
    ([binary64] below) alike. *)
Class Collaborators : Type := {
  fl : Q -> Q;
  slerp : Quaternion -> Quaternion -> Q -> Quaternion;
  integrate_gyro_quaternion_uniform :
    Array2 -> Q -> option Quaternion -> list Quaternion;
  unflipped : list Quaternion -> list Quaternion;
  unflipped_length : forall qs, length (unflipped qs) = length qs
}.

(** A list comprehension whose body may raise. *)
Fixpoint mapM {A B : Type} (f : A -> result B) (l : list A) : result (list B) :=
  match l with
  | [] => Ok []
  | a :: t => b <- f a ;; bs <- mapM f t ;; Ok (b :: bs)
  end.

(** A [for] loop over [l] in a method. *)
Fixpoint forM_ {S A : Type} (l : list A) (body : A -> Method S unit) : Method S unit :=
  match l with
  | [] => ret tt
  | a :: t => body a ;; forM_ t body
  end.

(** Attribute access on a value that may be [None]. *)
Definition attr {A : Type} (o : option A) : result A :=
  match o with
  | Some a => Ok a
  | None => Raise AttributeError
  end.

(** Subscripting a value that may be [None]. *)
Definition subscriptable {A : Type} (o : option A) : result A :=
  match o with
  | Some a => Ok a
  | None => Raise TypeError
  end.

Definition is_None {A : Type} (o : option A) : bool :=
  match o with
  | Some _ => false
  | None => true
  end.

(** [n / fps] for a frame number and a frame rate that may be [None]. *)
Definition divide (n : Z) (fps : option Q) : result Q :=
  match fps with
  | None => Raise TypeError
  | Some r => if Qeq_bool r 0 then Raise ZeroDivisionError else Ok (inject_Z n / r)
  end.

(** [frame_to_time_func if frame_to_time_func else lambda n: float(n) / camera_fps],
    applied to [n]. *)
Definition frame_time (frame_to_time_func : option (Z -> Q)) (camera_fps : option Q)
    (n : Z) : result Q :=
  match frame_to_time_func with
  | Some f => Ok (f n)
  | None => divide n camera_fps
  end.

(** [np.vstack(l).T] for a list of 3-vectors: one column per vector; numpy
    refuses an empty list. *)
Definition vstack_T (l : list Vec3) : result (list Vec3) :=
  match l with
  | [] => Raise ValueError
  | _ => Ok l
  end.

(** Truth value of an optional series: [None] is false, and a
    [TimeSeries] has a length, so an empty one is false as well. *)
Definition truthy {V : Type} (o : option (TimeSeries V)) : bool :=
  match o with
  | None => false
  | Some ts => negb (Nat.eqb (length (timestamps ts)) 0)
  end.

Definition show_nat (n : nat) : string :=
  DecimalString.NilZero.string_of_uint (Nat.to_uint n).

Section Dataset.

Context {collab : Collaborators}.

(** [quaternion_slerp]. *)
Definition quaternion_slerp (q0 q1 : Quaternion) (tau : Q) : Quaternion :=
  pack (unpack (slerp (pack (unpack q0)) (pack (unpack q1)) tau)).

(** [quaternion_array_interpolate]. The quotient is numpy's; it agrees with
    the rational one whenever [t1] and [t0] differ. *)
Definition quaternion_array_interpolate (qa : list Quaternion) (qtimes : list Q)
    (t : Q) : result Quaternion :=
  i <- py_index (flatnonzero (map (fun x => Qgt_bool x t) qtimes)) 0 ;;
  q0 <- py_index qa (i - 1) ;;
  q1 <- py_index qa i ;;
  t0 <- py_index qtimes (i - 1) ;;
  t1 <- py_index qtimes i ;;
  let tau := clip ((t - t0) / (t1 - t0)) 0 1 in
  Ok (quaternion_slerp q0 q1 tau).

(** The body of the loop of [resample_quaternion_array] for one target time. *)
Definition resample_at (qa : list Quaternion) (timestamps : list Q) (t : Q)
    : result Quaternion :=
  i <- py_index (flatnonzero (map (fun x => Qge_bool x t) timestamps)) 0 ;;
  t1 <- py_index timestamps i ;;
  if isclose t1 t then py_index qa i
  else
    t0 <- py_index timestamps (i - 1) ;;
    let tau := (t - t0) / (t1 - t0) in
    q0 <- py_index qa (i - 1) ;;
    q1 <- py_index qa i ;;
    let qc := unpack (slerp (pack (unpack q0)) (pack (unpack q1)) tau) in
    Ok (mkQuaternion (nth 0 qc 0) (nth 1 qc 0) (nth 2 qc 0) (nth 3 qc 0)).

(** [resample_quaternion_array]. *)
Definition resample_quaternion_array (qa : list Quaternion) (timestamps : list Q)
    (resize : option nat) : result (list Quaternion * list Q) :=
  let num_samples := match resize with Some r => r | None => length qa end in
  t_first <- py_index timestamps 0 ;;
  t_last <- py_index timestamps (-1) ;;
  let timestamps_new := linspace t_first t_last num_samples in
  new_q <- mapM (resample_at qa timestamps) timestamps_new ;;
  Ok (new_q, timestamps_new).

(** [Dataset._update_trajectory]. *)
Definition _update_trajectory : Method Dataset unit :=
  self <- get ;;
  let smooth_rotations := false in
  let set_trajectory tr :=
    put (mkDataset (_position_data self) (_orientation_data self) (Some tr)
           (landmarks self)) in
  let p := _position_data self in
  let o := _orientation_data self in
  if truthy p && negb (truthy o) then
    match p with
    | Some pd => set_trajectory (SplinedPositionTrajectory pd)
    | None => ret tt
    end
  else if truthy o && negb (truthy p) then
    match o with
    | Some od => set_trajectory (SplinedRotationTrajectory od smooth_rotations)
    | None => ret tt
    end
  else if truthy p && truthy o then
    match p, o with
    | Some pd, Some od => set_trajectory (SplinedTrajectory pd od smooth_rotations)
    | _, _ => ret tt
    end
  else ret tt.

Definition set_position_data (ts : TimeSeries Vec3) : Method Dataset unit :=
  self <- get ;;
  put (mkDataset (Some ts) (_orientation_data self) (trajectory self) (landmarks self)).

Definition set_orientation_data (ts : TimeSeries Quaternion) : Method Dataset unit :=
  self <- get ;;
  put (mkDataset (_position_data self) (Some ts) (trajectory self) (landmarks self)).

Definition time_mapping_error : exn :=
  DatasetError "Must specify frame_to_time_func OR camera_fps, not both or none of them".

(** [Dataset.position_from_nvm]. *)
Definition position_from_nvm (nvm_model : option NvmModel)
    (frame_to_time_func : option (Z -> Q)) (camera_fps : option Q)
    : Method Dataset unit :=
  if Bool.eqb (is_None nvm_model) (is_None frame_to_time_func) then
    raise time_mapping_error
  else
    model <- lift (attr nvm_model) ;;
    let cams := sorted framenumber (cameras model) in
    camera_times <-
      lift (mapM (fun c => frame_time frame_to_time_func camera_fps (framenumber c)) cams) ;;
    camera_pos <- lift (vstack_T (map position cams)) ;;
    let ts := mkTimeSeries camera_times camera_pos in
    set_position_data ts ;;
    _update_trajectory.

(** [Dataset.orientation_from_nvm]. *)
Definition orientation_from_nvm (nvm_model : option NvmModel)
    (frame_to_time_func : option (Z -> Q)) (camera_fps : option Q)
    : Method Dataset unit :=
  if Bool.eqb (is_None nvm_model) (is_None frame_to_time_func) then
    raise time_mapping_error
  else
    model <- lift (attr nvm_model) ;;
    let cams := sorted framenumber (cameras model) in
    camera_times <-
      lift (mapM (fun c => frame_time frame_to_time_func camera_fps (framenumber c)) cams) ;;
    let camera_orientations := unflipped (map orientation cams) in
    resampled <- lift (resample_quaternion_array camera_orientations camera_times None) ;;
    let ts := mkTimeSeries (snd resampled) (fst resampled) in
    set_orientation_data ts ;;
    _update_trajectory.

(** [Dataset.orientation_from_gyro]. *)
Definition orientation_from_gyro (gyro_data : Array2) (gyro_times : list Q)
    : Method Dataset unit :=
  let (n, d) := shape gyro_data in
  Q <-
    (if Nat.eqb d 3 then
       t1 <- lift (py_index gyro_times 1) ;;
       t0 <- lift (py_index gyro_times 0) ;;
       let dt := t1 - t0 in
       if negb (allclose (diff gyro_times) dt) then
         raise (DatasetError "gyro timestamps must be uniformly sampled")
       else ret (integrate_gyro_quaternion_uniform gyro_data dt None)
     else if Nat.eqb d 4 then ret (QuaternionArray gyro_data)
     else
       raise (DatasetError
                ("Gyro data must have shape (N,3) or (N, 4), was ("
                   ++ show_nat n ++ ", " ++ show_nat d ++ ")"))) ;;
  let ts := mkTimeSeries gyro_times (unflipped Q) in
  set_orientation_data ts ;;
  _update_trajectory.

(** [Dataset.landmarks_from_nvm]. *)
Definition landmarks_from_nvm (nvm_model : option NvmModel) : Method Dataset unit :=
  model <- lift (attr nvm_model) ;;
  forM_ (points model) (fun p =>
    let lm := mkLandmark (point_position p) in
    self <- get ;;
    put (mkDataset (_position_data self) (_orientation_data self) (trajectory self)
           (landmarks self ++ [lm]))).

End Dataset.

(** ** DatasetBuilder *)

Record DatasetBuilder : Type := mkDatasetBuilder {
  _nvm_model : option NvmModel;
  _nvm_camera_fps : option Q;
  _gyro_data : option Array2;
  _gyro_times : option (list Q);
  (** [_gyro_quat] is not created by [__init__]: [None] stands for the
      attribute being absent. *)
  _gyro_quat : option (list Quaternion);
  _orientation_source : option string;
  _position_source : option string;
  _landmark_source : option string
}.

(** [DatasetBuilder.__init__]. *)
Definition DatasetBuilder_init : DatasetBuilder :=
  mkDatasetBuilder None None None None None None None None.

Definition LANDMARK_SOURCES : list string := ["nvm"%string].
Definition SOURCES : list string := ["imu"%string] ++ LANDMARK_SOURCES.

(** [x in t] for strings. *)
Definition py_in (x : string) (t : list string) : bool := existsb (String.eqb x) t.

(** [a == b] for a selector, which is a string or [None]. *)
Definition selector_eqb (a : option string) (b : string) : bool :=
  match a with
  | Some s => String.eqb s b
  | None => false
  end.

(** A Python dict with string keys, in insertion order. *)
Definition dict (V : Type) : Type := list (string * V).

Fixpoint dict_get {V : Type} (d : dict V) (k : string) : result V :=
  match d with
  | [] => Raise KeyError
  | (k', v) :: t => if String.eqb k k' then Ok v else dict_get t k
  end.

Definition dict_values {V : Type} (d : dict V) : list V := map snd d.

(** [DatasetBuilder.selected_sources]. *)
Definition selected_sources (self : DatasetBuilder) : dict (option string) :=
  [ ("orientation"%string, _orientation_source self);
    ("position"%string, _position_source self);
    ("landmark"%string, _landmark_source self) ].

Definition default_camera_fps : Q := 30.

(** [DatasetBuilder.add_source_nvm]. *)
Definition add_source_nvm (nvm : NvmModel) (camera_fps : Q) : Method DatasetBuilder unit :=
  self <- get ;;
  if is_None (_nvm_model self) then
    put (mkDatasetBuilder (Some nvm) (Some camera_fps) (_gyro_data self)
           (_gyro_times self) (_gyro_quat self) (_orientation_source self)
           (_position_source self) (_landmark_source self))
  else raise (DatasetError "Can only add one NVM source").

Definition set_gyro (gyro_data : Array2) (gyro_times : list Q)
    : Method DatasetBuilder unit :=
  self <- get ;;
  put (mkDatasetBuilder (_nvm_model self) (_nvm_camera_fps self) (Some gyro_data)
         (Some gyro_times) (_gyro_quat self) (_orientation_source self)
         (_position_source self) (_landmark_source self)).

Definition set_gyro_quat (q : list Quaternion) : Method DatasetBuilder unit :=
  self <- get ;;
  put (mkDatasetBuilder (_nvm_model self) (_nvm_camera_fps self) (_gyro_data self)
         (_gyro_times self) (Some q) (_orientation_source self)
         (_position_source self) (_landmark_source self)).

Section DatasetBuilder.

Context {collab : Collaborators}.

(** [DatasetBuilder.add_source_gyro]. *)
Definition add_source_gyro (gyro_data : Array2) (gyro_times : list Q)
    : Method DatasetBuilder unit :=
  let (n, d) := shape gyro_data in
  if negb (Nat.eqb n (length gyro_times)) then
    raise (DatasetError "Gyro data and timestamps length did not match")
  else if negb (Nat.eqb d 3) then
    raise (DatasetError "Gyro data must have shape Nx3")
  else
    self <- get ;;
    if is_None (_gyro_data self) then
      set_gyro gyro_data gyro_times ;;
      t1 <- lift (py_index gyro_times 1) ;;
      t0 <- lift (py_index gyro_times 0) ;;
      let dt := t1 - t0 in
      if negb (allclose (diff gyro_times) dt) then
        raise (DatasetError "Gyro samples must be uniformly sampled")
      else
        let q := integrate_gyro_quaternion_uniform gyro_data dt None in
        set_gyro_quat q
    else raise (DatasetError "Can not add multiple gyro sources").

Definition no_such_source (source : string) : exn :=
  DatasetError ("No such source type: " ++ source).

(** [DatasetBuilder.set_orientation_source]. *)
Definition set_orientation_source (source : string) : Method DatasetBuilder unit :=
  if py_in source SOURCES then
    self <- get ;;
    put (mkDatasetBuilder (_nvm_model self) (_nvm_camera_fps self) (_gyro_data self)
           (_gyro_times self) (_gyro_quat self) (Some source)
           (_position_source self) (_landmark_source self))
  else raise (no_such_source source).

(** [DatasetBuilder.set_position_source]. *)
Definition set_position_source (source : string) : Method DatasetBuilder unit :=
  if py_in source SOURCES then
    self <- get ;;
    put (mkDatasetBuilder (_nvm_model self) (_nvm_camera_fps self) (_gyro_data self)
           (_gyro_times self) (_gyro_quat self) (_orientation_source self)
           (Some source) (_landmark_source self))
  else raise (no_such_source source).

(** [DatasetBuilder.set_landmark_source]. *)
Definition set_landmark_source (source : string) : Method DatasetBuilder unit :=
  if py_in source LANDMARK_SOURCES then
    self <- get ;;
    put (mkDatasetBuilder (_nvm_model self) (_nvm_camera_fps self) (_gyro_data self)
           (_gyro_times self) (_gyro_quat self) (_orientation_source self)
           (_position_source self) (Some source))
  else raise (no_such_source source).

(** [DatasetBuilder._can_build]. *)
Definition _can_build (self : DatasetBuilder) : bool :=
  negb (is_None (_landmark_source self))
  && negb (is_None (_orientation_source self))
  && negb (is_None (_position_source self)).

(** [q *= np.array([1, -1, -1, -1]).reshape(1,4)] on one row. *)
Definition flip_vector_part (q : Quaternion) : Quaternion :=
  mkQuaternion (qw q * 1) (qx q * -1) (qy q * -1) (qz q * -1).

(** [n / fps] as the alignment step computes it: the frame number is
    converted to a double and the quotient is rounded. *)
Definition divide_fl (n : Z) (fps : option Q) : result Q :=
  match fps with
  | None => Raise TypeError
  | Some r =>
      if Qeq_bool r 0 then Raise ZeroDivisionError
      else Ok (fl (fl (inject_Z n) / r))
  end.

(** [DatasetBuilder._nvm_aligned_imu_orientations]; it reads the builder
    and writes nothing. The camera times, the differences to the reference
    time and the sample interval are rounded results; comparisons, absolute
    values and sign changes are exact on doubles. *)
Definition _nvm_aligned_imu_orientations (self : DatasetBuilder)
    : result (Array2 * list Q) :=
  model <- attr (_nvm_model self) ;;
  let cams := sorted framenumber (cameras model) in
  cam_times <- mapM (fun c => divide_fl (framenumber c) (_nvm_camera_fps self)) cams ;;
  gyro_times <- subscriptable (_gyro_times self) ;;
  g0 <- py_index gyro_times 0 ;;
  cam_idx <- py_index (flatnonzero (map (fun ct => Qge_bool ct g0) cam_times)) 0 ;;
  cam_ref <- py_index cams cam_idx ;;
  t_ref <- py_index cam_times cam_idx ;;
  let gstart_idx := argmin (map (fun g => Qabs (fl (g - t_ref))) gyro_times) in
  let cam_q := conjugate (orientation cam_ref) in
  let q_initial := pack [qw cam_q; qx cam_q; qy cam_q; qz cam_q] in
  gyro_data <- subscriptable (_gyro_data self) ;;
  let gyro_part := mkArray2 (ncols gyro_data) (py_slice_from (rows gyro_data) gstart_idx) in
  let gyro_part_times := py_slice_from gyro_times gstart_idx in
  t1 <- py_index gyro_part_times 1 ;;
  t0 <- py_index gyro_part_times 0 ;;
  let dt := fl (t1 - t0) in
  let q := integrate_gyro_quaternion_uniform gyro_part dt (Some q_initial) in
  let q := map flip_vector_part q in
  Ok (quaternion_rows q, gyro_part_times).

(** The body of [build] after its two checks, run on the fresh [Dataset]. *)
Definition populate (self : DatasetBuilder) (ss : dict (option string))
    : Method Dataset unit :=
  landmarks_from_nvm (_nvm_model self) ;;
  if forallb (fun source_value => selector_eqb source_value "nvm") (dict_values ss) then
    orientation_from_nvm (_nvm_model self) None (_nvm_camera_fps self) ;;
    position_from_nvm (_nvm_model self) None (_nvm_camera_fps self)
  else
    o <- lift (dict_get ss "orientation") ;;
    (if selector_eqb o "imu" then
       aligned <- lift (_nvm_aligned_imu_orientations self) ;;
       orientation_from_gyro (fst aligned) (snd aligned)
     else ret tt) ;;
    position_from_nvm (_nvm_model self) None (_nvm_camera_fps self).

(** [DatasetBuilder.build]; the dataset is local to the call, so it is
    lost when the call raises. *)
Definition build (self : DatasetBuilder) : result Dataset :=
  if negb (_can_build self) then Raise (DatasetError "Must select all sources")
  else
    let ds := Dataset_init in
    let ss := selected_sources self in
    l <- dict_get ss "landmark" ;;
    if negb (selector_eqb l "nvm") then
      Raise (DatasetError "Only landmarks from NVM is supported")
    else
      match populate self ss ds with
      | (ds', Ok _) => Ok ds'
      | (_, Raise e) => Raise e
      end.

(** The operations of a builder, for statements about all of them. *)
Inductive builder_op : Type :=
| op_add_source_nvm (nvm : NvmModel) (camera_fps : Q)
| op_add_source_gyro (gyro_data : Array2) (gyro_times : list Q)
| op_set_orientation_source (source : string)
| op_set_position_source (source : string)
| op_set_landmark_source (source : string)
| op_nvm_aligned_imu_orientations
| op_build.

(** The builder an operation leaves behind, and whether it raised. *)
Definition run_op (op : builder_op) (self : DatasetBuilder)
    : DatasetBuilder * option exn :=
  let outcome {A : Type} (r : result A) : option exn :=
    match r with Ok _ => None | Raise e => Some e end in
  match op with
  | op_add_source_nvm nvm fps =>
      let (b, r) := add_source_nvm nvm fps self in (b, outcome r)
  | op_add_source_gyro d t =>
      let (b, r) := add_source_gyro d t self in (b, outcome r)
  | op_set_orientation_source s =>
      let (b, r) := set_orientation_source s self in (b, outcome r)
  | op_set_position_source s =>
      let (b, r) := set_position_source s self in (b, outcome r)
  | op_set_landmark_source s =>
      let (b, r) := set_landmark_source s self in (b, outcome r)
  | op_nvm_aligned_imu_orientations =>
      (self, outcome (_nvm_aligned_imu_orientations self))
  | op_build => (self, outcome (build self))
  end.

End DatasetBuilder.

(** ** A concrete set of collaborators for closed examples

    The statements below hold for every [Collaborators]; closed examples
    need one. Here: exact arithmetic, linear blending for slerp, an
    integrator that holds the initial orientation (the identity by default)
    at every sample, and no sign correction. *)
Definition blend (q0 q1 : Quaternion) (tau : Q) : Quaternion :=
  mkQuaternion (qw q0 + tau * (qw q1 - qw q0)) (qx q0 + tau * (qx q1 - qx q0))
    (qy q0 + tau * (qy q1 - qy q0)) (qz q0 + tau * (qz q1 - qz q0)).

Definition hold_initial (gyro_data : Array2) (dt : Q) (initial : option Quaternion)
    : list Quaternion :=
  let q := match initial with Some q => q | None => mkQuaternion 1 0 0 0 end in
  map (fun _ => q) (rows gyro_data).

Definition stand_in : Collaborators := {|
  fl := fun x => x;
  slerp := blend;
  integrate_gyro_quaternion_uniform := hold_initial;
  unflipped := fun qs => qs;
  unflipped_length := fun qs => eq_refl
|}.

(** ** Vocabulary of the statements *)

(** The landmark made from a reconstruction point. *)
Definition landmark_of (p : Point) : Landmark := mkLandmark (point_position p).

Definition source_ok (s : option string) : Prop :=
  s = None \/ s = Some "imu"%string \/ s = Some "nvm"%string.

Definition landmark_source_ok (s : option string) : Prop :=
  s = None \/ s = Some "nvm"%string.

(** The invariant of the three selector fields. *)
Definition selectors_valid (b : DatasetBuilder) : Prop :=
  source_ok (_orientation_source b)
  /\ source_ok (_position_source b)
  /\ landmark_source_ok (_landmark_source b).


(** Timestamps that grow from each sample to every later one. *)
Definition strictly_increasing (l : list Q) : Prop :=
  forall i j x y, (i < j)%nat ->
    nth_error l i = Some x -> nth_error l j = Some y -> x < y.

(** Timestamps whose consecutive differences are all the same. *)
Definition uniformly_spaced (l : list Q) : Prop :=
  exists h, forall i x y,
    nth_error l i = Some x -> nth_error l (S i) = Some y -> y - x == h.

(** A decision procedure for [strictly_increasing]. *)
Fixpoint strictly_increasingb (l : list Q) : bool :=
  match l with
  | x :: (y :: _) as t => Qgt_bool y x && strictly_increasingb t
  | _ => true
  end.

(** [j] is the first index of [l] whose entry has the least distance [d]. *)
Definition first_least (d : Q -> Q) (l : list Q) (j : nat) : Prop :=
  exists g, nth_error l j = Some g
    /\ forall i x, nth_error l i = Some x ->
         d g <= d x /\ ((i < j)%nat -> d g < d x).

(** ** Concrete inputs of the closed examples *)

(** Three cameras at frames 0, 30 and 90, given out of order, and two points. *)
Definition example_model : NvmModel :=
  mkNvmModel
    [ mkCamera 90 (3, 0, 0) (mkQuaternion 0 0 1 0);
      mkCamera 0 (0, 0, 0) (mkQuaternion 1 0 0 0);
      mkCamera 30 (1, 0, 0) (mkQuaternion 0 1 0 0) ]
    [ mkPoint (1, 2, 3); mkPoint (4, 5, 6) ].

(** A builder holding [example_model] at 30 frames per second, with the
    three selectors set to the reconstruction. *)
Definition example_builder_all_nvm : DatasetBuilder :=
  mkDatasetBuilder (Some example_model) (Some default_camera_fps) None None None
    (Some "nvm"%string) (Some "nvm"%string) (Some "nvm"%string).

(** Six gyro samples at 4 Hz from 1/2 s on. *)
Definition example_gyro_data : Array2 :=
  mkArray2 3 [[0; 0; 0]; [0; 0; 0]; [0; 0; 0]; [0; 0; 0]; [0; 0; 0]; [0; 0; 0]].

Definition example_gyro_times : list Q := [1 # 2; 3 # 4; 1; 5 # 4; 3 # 2; 7 # 4].

Definition example_quaternions : list Quaternion :=
  [mkQuaternion 1 0 0 0; mkQuaternion 0 1 0 0; mkQuaternion 0 0 1 0].

(** ** Test helpers ([tests/helpers.py]) *)

(** [np.all(a == b)] for two 3-vectors. *)
Definition vec3_eqb (a b : Vec3) : bool :=
  let '(a0, a1, a2) := a in
  let '(b0, b1, b2) := b in
  Qeq_bool a0 b0 && Qeq_bool a1 b1 && Qeq_bool a2 b2.

(** [find_landmark]: [None] on an empty list, else the first landmark at
    position [p], or [None] when there is none. *)
Definition find_landmark (p : Vec3) (landmarks : list Landmark) : option Landmark :=
  match landmarks with
  | [] => None
  | _ => find (fun lm => vec3_eqb (lm_position lm) p) landmarks
  end.

(** Exceptions other than the module's own [DatasetError]. *)
Definition builtin_error (e : exn) : Prop :=
  e = IndexError \/ e = AttributeError \/ e = TypeError
  \/ e = ZeroDivisionError \/ e = ValueError.

(** Componentwise equality of 3-vectors as rationals. *)
Definition vec3_eq (a b : Vec3) : Prop :=
  fst (fst a) == fst (fst b) /\ snd (fst a) == snd (fst b) /\ snd a == snd b.

Section ResampledValue.

Context {collab : Collaborators}.


End ResampledValue.

(** ** Binary64 rounding *)

(** [p / q] rounded to the nearest integer, ties to the even one, for
    [p >= 0] and [q > 0]. *)
Definition round_half_even (p q : Z) : Z :=
  let f := (p / q)%Z in
  let r := (p mod q)%Z in
  match (2 * r ?= q)%Z with
  | Lt => f
  | Gt => (f + 1)%Z
  | Eq => if Z.even f then f else (f + 1)%Z
  end.

(** [n / d / 2^e] as a fraction of integers. *)
Definition scaled (n d e : Z) : Z * Z :=
  if (0 <=? e)%Z then (n, (d * 2 ^ e)%Z) else ((n * 2 ^ (- e))%Z, d).

(** The double nearest to [n / d], for [n, d > 0]: a significand of 53
    bits, or fewer at the least exponent -1074 (subnormals). Overflow to
    infinity is not represented. *)
Definition binary64_pos (n d : Z) : Q :=
  let e0 := (Z.log2 n - Z.log2 d - 52)%Z in
  let '(p0, q0) := scaled n d e0 in
  let e1 := if (p0 <? 2 ^ 52 * q0)%Z then (e0 - 1)%Z else e0 in
  let e := Z.max e1 (-1074) in
  let '(p, q) := scaled n d e in
  let m := round_half_even p q in
  if (0 <=? e)%Z then inject_Z (m * 2 ^ e) else m # Z.to_pos (2 ^ (- e)).

(** IEEE 754 round-to-nearest-even to binary64. *)
Definition binary64 (x : Q) : Q :=
  match Qnum x with
  | Z0 => 0
  | Zpos n => binary64_pos (Zpos n) (Zpos (Qden x))
  | Zneg n => - binary64_pos (Zpos n) (Zpos (Qden x))
  end.

(** The collaborators of the closed examples with IEEE rounding. *)
Definition binary64_unit : Collaborators := {|
  fl := binary64;
  slerp := blend;
  integrate_gyro_quaternion_uniform := hold_initial;
  unflipped := fun qs => qs;
  unflipped_length := fun qs => eq_refl
|}.


(** ** Resampling with the rounding written out

    [np.linspace], [np.isclose] and the loop of [resample_quaternion_array]
    once more, every arithmetic result passed through [fl]. With exact
    arithmetic these are the functions above. (The branch numpy takes when
    the step underflows to zero is left out.) *)

Section RoundedResampling.

Context {collab : Collaborators}.

(** [np.linspace]: [y = arange(num) * step + start], [y[-1] = stop]. *)
Definition linspace_fl (start stop : Q) (num : nat) : list Q :=
  match num with
  | O => []
  | S O => [start]
  | S (S _ as div) =>
      let step := fl (fl (stop - start) / fl (inject_Z (Z.of_nat div))) in
      map (fun i => fl (fl (inject_Z (Z.of_nat i) * step) + start)) (seq 0 div)
        ++ [stop]
  end.

(** [np.isclose(a, b)]: [abs(a - b) <= atol + rtol * abs(b)], the
    tolerances being the doubles nearest to 1e-8 and 1e-5. *)
Definition isclose_fl (a b : Q) : bool :=
  Qle_bool (Qabs (fl (a - b))) (fl (fl atol + fl (fl rtol * Qabs b))).

(** The body of the loop of [resample_quaternion_array]. *)
Definition resample_at_fl (qa : list Quaternion) (timestamps : list Q) (t : Q)
    : result Quaternion :=
  i <- py_index (flatnonzero (map (fun x => Qge_bool x t) timestamps)) 0 ;;
  t1 <- py_index timestamps i ;;
  if isclose_fl t1 t then py_index qa i
  else
    t0 <- py_index timestamps (i - 1) ;;
    let tau := fl (fl (t - t0) / fl (t1 - t0)) in
    q0 <- py_index qa (i - 1) ;;
    q1 <- py_index qa i ;;
    let qc := unpack (slerp (pack (unpack q0)) (pack (unpack q1)) tau) in
    Ok (mkQuaternion (nth 0 qc 0) (nth 1 qc 0) (nth 2 qc 0) (nth 3 qc 0)).

(** [resample_quaternion_array]. *)
Definition resample_quaternion_array_fl (qa : list Quaternion) (timestamps : list Q)
    (resize : option nat) : result (list Quaternion * list Q) :=
  let num_samples := match resize with Some r => r | None => length qa end in
  t_first <- py_index timestamps 0 ;;
  t_last <- py_index timestamps (-1) ;;
  let timestamps_new := linspace_fl t_first t_last num_samples in
  new_q <- mapM (resample_at_fl qa timestamps) timestamps_new ;;
  Ok (new_q, timestamps_new).

End RoundedResampling.

(** ** Inputs of the closed examples on doubles *)




(** A reconstruction with cameras at frames 0 and 60, and a gyro stream of
    six samples at 4 Hz from 1/2 s on that ends before the second camera. *)
Definition example_model_late_camera : NvmModel :=
  mkNvmModel
    [ mkCamera 0 (0, 0, 0) (mkQuaternion 1 0 0 0);
      mkCamera 60 (2, 0, 0) (mkQuaternion 0 1 0 0) ]
    [ mkPoint (1, 2, 3) ].

Definition example_builder_late_camera : DatasetBuilder :=
  mkDatasetBuilder (Some example_model_late_camera) (Some default_camera_fps)
    (Some example_gyro_data) (Some example_gyro_times) None
    (Some "imu"%string) (Some "nvm"%string) (Some "nvm"%string).

(** Cameras at frames 3 and 6 at 30 frames per second, and four gyro
    samples at the doubles nearest to 0.1, 0.2, 0.3 and 0.4: the first
    camera time, computed as a double, is the first gyro timestamp. *)
Definition example_model_tie : NvmModel :=
  mkNvmModel
    [ mkCamera 3 (0, 0, 0) (mkQuaternion 1 0 0 0);
      mkCamera 6 (1, 0, 0) (mkQuaternion 0 1 0 0) ]
    [].

Definition example_builder_tie : DatasetBuilder :=
  mkDatasetBuilder (Some example_model_tie) (Some default_camera_fps)
    (Some (mkArray2 3 [[0; 0; 0]; [0; 0; 0]; [0; 0; 0]; [0; 0; 0]]))
    (Some [binary64 (1 # 10); binary64 (2 # 10); binary64 (3 # 10); binary64 (4 # 10)])
    None (Some "imu"%string) (Some "nvm"%string) (Some "nvm"%string).

(** * Properties *)

Unset Implicit Arguments.

(** ** Landmark ingestion *)

Lemma landmarks_loop (pts : list Point) : forall ds : Dataset,
  forM_ pts (fun p =>
    let lm := mkLandmark (point_position p) in
    self <- get ;;
    put (mkDataset (_position_data self) (_orientation_data self) (trajectory self)
           (landmarks self ++ [lm]))) ds
  = (mkDataset (_position_data ds) (_orientation_data ds) (trajectory ds)
       (landmarks ds ++ map landmark_of pts), Ok tt).
Proof.
  induction pts as [|p pts IH]; intros [pos ori tr lms]; simpl.
  - now rewrite app_nil_r.
  - rewrite IH. simpl. now rewrite <- app_assoc.
Qed.

Lemma landmarks_from_nvm_eq (m : NvmModel) (ds : Dataset) :
  landmarks_from_nvm (Some m) ds
  = (mkDataset (_position_data ds) (_orientation_data ds) (trajectory ds)
       (landmarks ds ++ map landmark_of (points m)), Ok tt).
Proof.
  unfold landmarks_from_nvm. simpl. apply landmarks_loop.
Qed.

Lemma landmarks_from_nvm_None (ds : Dataset) :
  landmarks_from_nvm None ds = (ds, Raise AttributeError).
Proof. reflexivity. Qed.

(** C8: [landmarks_from_nvm] appends one landmark per reconstruction point,
    in the source's order, to the landmarks already present; a second call
    appends the same landmarks again; the position series, the orientation
    series and the trajectory are left as they were. *)
Theorem landmarks_from_nvm_appends (ds : Dataset) (m : NvmModel) :
  let new := map landmark_of (points m) in
  let ds1 := fst (landmarks_from_nvm (Some m) ds) in
  let ds2 := fst (landmarks_from_nvm (Some m) ds1) in
  snd (landmarks_from_nvm (Some m) ds) = Ok tt
  /\ landmarks ds1 = landmarks ds ++ new
  /\ length new = length (points m)
  /\ (forall i p, nth_error (points m) i = Some p ->
        nth_error new i = Some (mkLandmark (point_position p)))
  /\ landmarks ds2 = (landmarks ds ++ new) ++ new
  /\ _position_data ds1 = _position_data ds
  /\ _orientation_data ds1 = _orientation_data ds
  /\ trajectory ds1 = trajectory ds.
Proof.
  cbv zeta. rewrite !landmarks_from_nvm_eq. simpl.
  repeat split; auto.
  - apply length_map.
  - intros i p Hp. rewrite nth_error_map, Hp. reflexivity.
Qed.

(** ** Selector vocabulary *)

Lemma py_in_SOURCES (s : string) :
  py_in s SOURCES = true <-> s = "imu"%string \/ s = "nvm"%string.
Proof.
  unfold py_in, SOURCES, LANDMARK_SOURCES. simpl.
  rewrite !orb_true_iff, !String.eqb_eq. intuition discriminate.
Qed.

Lemma py_in_LANDMARK_SOURCES (s : string) :
  py_in s LANDMARK_SOURCES = true <-> s = "nvm"%string.
Proof.
  unfold py_in, LANDMARK_SOURCES. simpl.
  rewrite orb_true_iff, String.eqb_eq. intuition discriminate.
Qed.

Lemma py_in_SOURCES_false (s : string) :
  s <> "imu"%string -> s <> "nvm"%string -> py_in s SOURCES = false.
Proof.
  intros H1 H2. destruct (py_in s SOURCES) eqn:E; auto.
  apply py_in_SOURCES in E. tauto.
Qed.

Lemma py_in_LANDMARK_SOURCES_false (s : string) :
  s <> "nvm"%string -> py_in s LANDMARK_SOURCES = false.
Proof.
  intros H. destruct (py_in s LANDMARK_SOURCES) eqn:E; auto.
  apply py_in_LANDMARK_SOURCES in E. tauto.
Qed.

Section BuilderProperties.

Context {collab : Collaborators}.

(** [add_source_gyro] writes the two gyro fields (and the cache) only. *)
Lemma add_source_gyro_selectors (d : Array2) (t : list Q) (b : DatasetBuilder) :
  let b' := fst (add_source_gyro d t b) in
  _orientation_source b' = _orientation_source b
  /\ _position_source b' = _position_source b
  /\ _landmark_source b' = _landmark_source b
  /\ _nvm_model b' = _nvm_model b
  /\ _nvm_camera_fps b' = _nvm_camera_fps b.
Proof.
  unfold add_source_gyro, shape. cbv zeta.
  destruct (negb (Nat.eqb (length (rows d)) (length t))); [simpl; auto 6|].
  destruct (negb (Nat.eqb (ncols d) 3)); [simpl; auto 6|].
  simpl. destruct (is_None (_gyro_data b)); [|simpl; auto 6].
  unfold set_gyro, lift. simpl.
  destruct (py_index t 1); [|simpl; auto 6].
  destruct (py_index t 0); [|simpl; auto 6].
  destruct (negb (allclose (diff t) (a - a0))); simpl; auto 6.
Qed.

Lemma run_op_selectors_valid (op : builder_op) (b : DatasetBuilder) :
  selectors_valid b -> selectors_valid (fst (run_op op b)).
Proof.
  intros (Ho & Hp & Hl). destruct op as [nvm fps|d t|s|s|s| |]; simpl.
  - unfold add_source_nvm. simpl.
    destruct (is_None (_nvm_model b)); simpl; repeat split; assumption.
  - destruct (add_source_gyro d t b) as [b' r] eqn:E.
    pose proof (add_source_gyro_selectors d t b) as H. rewrite E in H.
    simpl in *. destruct H as (H1 & H2 & H3 & _).
    unfold selectors_valid. now rewrite H1, H2, H3.
  - unfold set_orientation_source.
    destruct (py_in s SOURCES) eqn:E; simpl; repeat split; try assumption.
    apply py_in_SOURCES in E. unfold source_ok. destruct E; subst; auto.
  - unfold set_position_source.
    destruct (py_in s SOURCES) eqn:E; simpl; repeat split; try assumption.
    apply py_in_SOURCES in E. unfold source_ok. destruct E; subst; auto.
  - unfold set_landmark_source.
    destruct (py_in s LANDMARK_SOURCES) eqn:E; simpl; repeat split; try assumption.
    apply py_in_LANDMARK_SOURCES in E. unfold landmark_source_ok. subst; auto.
  - repeat split; assumption.
  - repeat split; assumption.
Qed.

(** C7: every builder operation keeps the orientation and position
    selectors unset or in {imu, nvm} and the landmark selector unset or nvm;
    each setter stores a value of its vocabulary, and for any other value
    raises a [DatasetError] in the setter itself and leaves the builder as it
    was. *)
Theorem selectors_stay_in_vocabulary :
  (forall op b, selectors_valid b -> selectors_valid (fst (run_op op b)))
  /\ (forall s b, s = "imu"%string \/ s = "nvm"%string ->
        set_orientation_source s b
        = (mkDatasetBuilder (_nvm_model b) (_nvm_camera_fps b) (_gyro_data b)
             (_gyro_times b) (_gyro_quat b) (Some s) (_position_source b)
             (_landmark_source b), Ok tt)
        /\ set_position_source s b
        = (mkDatasetBuilder (_nvm_model b) (_nvm_camera_fps b) (_gyro_data b)
             (_gyro_times b) (_gyro_quat b) (_orientation_source b) (Some s)
             (_landmark_source b), Ok tt))
  /\ (forall s b, s = "nvm"%string ->
        set_landmark_source s b
        = (mkDatasetBuilder (_nvm_model b) (_nvm_camera_fps b) (_gyro_data b)
             (_gyro_times b) (_gyro_quat b) (_orientation_source b)
             (_position_source b) (Some s), Ok tt))
  /\ (forall s b, s <> "imu"%string -> s <> "nvm"%string ->
        set_orientation_source s b
        = (b, Raise (DatasetError ("No such source type: " ++ s)))
        /\ set_position_source s b
        = (b, Raise (DatasetError ("No such source type: " ++ s))))
  /\ (forall s b, s <> "nvm"%string ->
        set_landmark_source s b
        = (b, Raise (DatasetError ("No such source type: " ++ s)))).
Proof.
  split; [exact run_op_selectors_valid|].
  split; [|split; [|split]].
  - intros s b Hs. apply py_in_SOURCES in Hs.
    unfold set_orientation_source, set_position_source. rewrite Hs. split; reflexivity.
  - intros s b Hs. apply py_in_LANDMARK_SOURCES in Hs.
    unfold set_landmark_source. rewrite Hs. reflexivity.
  - intros s b H1 H2.
    unfold set_orientation_source, set_position_source.
    rewrite (py_in_SOURCES_false s H1 H2). split; reflexivity.
  - intros s b H. unfold set_landmark_source.
    rewrite (py_in_LANDMARK_SOURCES_false s H). reflexivity.
Qed.

End BuilderProperties.

(** ** Unfolding [add_source_gyro] *)

Section GyroUnfold.

Context {collab : Collaborators}.

(** [add_source_gyro] on a builder without a gyro source, for well-shaped
    data: the two fields are written first. *)
Lemma add_source_gyro_fresh (b : DatasetBuilder) (d : Array2) (t : list Q) :
  shape d = (length t, 3%nat) ->
  _gyro_data b = None ->
  add_source_gyro d t b
  = let b1 := mkDatasetBuilder (_nvm_model b) (_nvm_camera_fps b) (Some d) (Some t)
                (_gyro_quat b) (_orientation_source b) (_position_source b)
                (_landmark_source b) in
    match py_index t 1 with
    | Raise e => (b1, Raise e)
    | Ok t1 =>
        match py_index t 0 with
        | Raise e => (b1, Raise e)
        | Ok t0 =>
            if allclose (diff t) (t1 - t0) then
              (mkDatasetBuilder (_nvm_model b) (_nvm_camera_fps b) (Some d) (Some t)
                 (Some (integrate_gyro_quaternion_uniform d (t1 - t0) None))
                 (_orientation_source b) (_position_source b) (_landmark_source b),
               Ok tt)
            else (b1, Raise (DatasetError "Gyro samples must be uniformly sampled"))
        end
    end.
Proof.
  intros Hs Hb. unfold add_source_gyro. rewrite Hs, Nat.eqb_refl.
  cbn [negb Nat.eqb bind Method_Monad get]. rewrite Hb.
  cbn [is_None set_gyro bind Method_Monad get put lift].
  destruct (py_index t 1) as [t1|e]; [|reflexivity].
  destruct (py_index t 0) as [t0|e]; [|reflexivity].
  destruct (allclose (diff t) (t1 - t0)); reflexivity.
Qed.

End GyroUnfold.

(** ** Error paths of ingestion and build *)

Section ErrorPaths.

Context {collab : Collaborators}.

Lemma py_index_short {A : Type} (l : list A) (i : Z) :
  (Z.of_nat (length l) <= i)%Z -> py_index l i = Raise IndexError.
Proof.
  intros H. unfold py_index.
  destruct (i <? 0)%Z eqn:E; [apply Z.ltb_lt in E; lia|].
  destruct (0 <=? i)%Z; simpl; [|reflexivity].
  destruct (i <? Z.of_nat (length l))%Z eqn:E'; [apply Z.ltb_lt in E'; lia|reflexivity].
Qed.

(** C9: with the three selectors set (the landmark selector to nvm) and no
    reconstruction source added, [build] hands [None] to the landmark
    ingestion and fails on the attribute access, not with a [DatasetError]. *)
Theorem build_without_nvm_source (b : DatasetBuilder) (o p : string) :
  _nvm_model b = None ->
  _orientation_source b = Some o ->
  _position_source b = Some p ->
  _landmark_source b = Some "nvm"%string ->
  build b = Raise AttributeError
  /\ landmarks_from_nvm (_nvm_model b) Dataset_init = (Dataset_init, Raise AttributeError).
Proof.
  intros Hm Ho Hp Hl. unfold build, _can_build, selected_sources, populate.
  rewrite Hm, Ho, Hp, Hl. simpl. split; reflexivity.
Qed.

(** C10: for 3-wide gyro data with as many rows as timestamps and fewer
    than two of them, [add_source_gyro] (on a builder without a gyro source)
    and [orientation_from_gyro] raise [IndexError] where the sample interval
    is read from the first two timestamps. *)
Theorem gyro_needs_two_samples (gyro_data : Array2) (gyro_times : list Q)
    (b : DatasetBuilder) (ds : Dataset) :
  shape gyro_data = (length gyro_times, 3%nat) ->
  (length gyro_times < 2)%nat ->
  _gyro_data b = None ->
  snd (add_source_gyro gyro_data gyro_times b) = Raise IndexError
  /\ py_index gyro_times 1 = Raise IndexError
  /\ orientation_from_gyro gyro_data gyro_times ds = (ds, Raise IndexError).
Proof.
  intros Hs Hn Hb.
  assert (Hi : py_index gyro_times 1 = Raise IndexError)
    by (apply py_index_short; lia).
  split; [|split; [exact Hi|]].
  - rewrite add_source_gyro_fresh by assumption. now rewrite Hi.
  - unfold orientation_from_gyro. rewrite Hs.
    cbn [Nat.eqb bind Method_Monad lift]. now rewrite Hi.
Qed.

End ErrorPaths.

Lemma gyro_needs_two_samples_witness :
  snd (add_source_gyro (collab := stand_in) (mkArray2 3 [[0; 0; 0]]) [0]
         DatasetBuilder_init) = Raise IndexError
  /\ py_index [0] 1 = Raise IndexError
  /\ orientation_from_gyro (collab := stand_in) (mkArray2 3 [[0; 0; 0]]) [0] Dataset_init
     = (Dataset_init, Raise IndexError).
Proof.
  apply (gyro_needs_two_samples (collab := stand_in) (mkArray2 3 [[0; 0; 0]]) [0]
           DatasetBuilder_init Dataset_init).
  - reflexivity.
  - simpl. lia.
  - reflexivity.
Defined.

Lemma build_without_nvm_source_witness :
  let b := mkDatasetBuilder None None None None None (Some "imu"%string)
             (Some "nvm"%string) (Some "nvm"%string) in
  build (collab := stand_in) b = Raise AttributeError
  /\ landmarks_from_nvm (_nvm_model b) Dataset_init = (Dataset_init, Raise AttributeError).
Proof.
  apply (build_without_nvm_source (collab := stand_in)
           (mkDatasetBuilder None None None None None (Some "imu"%string)
              (Some "nvm"%string) (Some "nvm"%string)) "imu" "nvm");
    reflexivity.
Defined.

Lemma selectors_stay_in_vocabulary_witness :
  selectors_valid
    (fst (run_op (collab := stand_in) (op_set_orientation_source "gps") DatasetBuilder_init))
  /\ set_landmark_source "nvm" DatasetBuilder_init
     = (mkDatasetBuilder None None None None None None None (Some "nvm"%string), Ok tt)
  /\ set_landmark_source "imu" DatasetBuilder_init
     = (DatasetBuilder_init, Raise (DatasetError "No such source type: imu")).
Proof.
  pose proof (selectors_stay_in_vocabulary (collab := stand_in)) as (H1 & _ & H3 & _ & H5).
  split; [|split].
  - apply H1. unfold selectors_valid, source_ok, landmark_source_ok. simpl. auto.
  - apply (H3 "nvm"%string DatasetBuilder_init). reflexivity.
  - apply (H5 "imu"%string DatasetBuilder_init). discriminate.
Defined.

(** ** Python indexing *)

Lemma py_index_nat {A : Type} (l : list A) (i : nat) (x : A) :
  nth_error l i = Some x -> py_index l (Z.of_nat i) = Ok x.
Proof.
  intros H. assert (Hlt : (i < length l)%nat) by (apply nth_error_Some; congruence).
  unfold py_index.
  destruct (Z.of_nat i <? 0)%Z eqn:E; [apply Z.ltb_lt in E; lia|].
  destruct (0 <=? Z.of_nat i)%Z eqn:E1; [|apply Z.leb_gt in E1; lia].
  destruct (Z.of_nat i <? Z.of_nat (length l))%Z eqn:E2; [|apply Z.ltb_ge in E2; lia].
  simpl. now rewrite Nat2Z.id, H.
Qed.

Lemma py_index_last {A : Type} (l : list A) (x : A) :
  py_index (l ++ [x]) (-1) = Ok x.
Proof.
  unfold py_index. rewrite length_app. simpl length.
  change (-1 <? 0)%Z with true. cbv iota.
  replace (-1 + Z.of_nat (length l + 1))%Z with (Z.of_nat (length l)) by lia.
  destruct (0 <=? Z.of_nat (length l))%Z eqn:E1; [|apply Z.leb_gt in E1; lia].
  destruct (Z.of_nat (length l) <? Z.of_nat (length l + 1))%Z eqn:E2;
    [|apply Z.ltb_ge in E2; lia].
  simpl. rewrite Nat2Z.id, nth_error_app2, Nat.sub_diag by lia. reflexivity.
Qed.

Lemma py_index_neg1 {A : Type} (l : list A) (x : A) :
  nth_error l (length l - 1) = Some x -> py_index l (-1) = Ok x.
Proof.
  intros H. assert (Hlt : (length l - 1 < length l)%nat)
    by (apply nth_error_Some; congruence).
  unfold py_index. change (-1 <? 0)%Z with true. cbv iota.
  replace (-1 + Z.of_nat (length l))%Z with (Z.of_nat (length l - 1)) by lia.
  destruct (0 <=? Z.of_nat (length l - 1))%Z eqn:E1; [|apply Z.leb_gt in E1; lia].
  destruct (Z.of_nat (length l - 1) <? Z.of_nat (length l))%Z eqn:E2;
    [|apply Z.ltb_ge in E2; lia].
  simpl. now rewrite Nat2Z.id, H.
Qed.

Lemma py_index_first {A : Type} (l : list A) (x : A) :
  nth_error l 0 = Some x -> py_index l 0 = Ok x.
Proof. exact (py_index_nat l 0 x). Qed.

Lemma py_index_second {A : Type} (l : list A) (x : A) :
  nth_error l 1 = Some x -> py_index l 1 = Ok x.
Proof. exact (py_index_nat l 1 x). Qed.

Lemma py_index_0 {A : Type} (x : A) (l : list A) : py_index (x :: l) 0 = Ok x.
Proof. exact (py_index_nat (x :: l) 0 x eq_refl). Qed.

Lemma py_index_1 {A : Type} (x y : A) (l : list A) : py_index (x :: y :: l) 1 = Ok y.
Proof. exact (py_index_nat (x :: y :: l) 1 y eq_refl). Qed.

(** ** Sorting by frame number *)

Lemma insert_by_not_nil {A : Type} (key : A -> Z) (a : A) (l : list A) :
  insert_by key a l <> [].
Proof. destruct l as [|b t]; simpl; [|destruct (key a <=? key b)%Z]; discriminate. Qed.

Lemma sorted_nil_inv {A : Type} (key : A -> Z) (l : list A) :
  sorted key l = [] -> l = [].
Proof.
  destruct l as [|a t]; [reflexivity|]. simpl. intros H.
  now apply insert_by_not_nil in H.
Qed.

Lemma insert_by_Permutation {A : Type} (key : A -> Z) (a : A) (l : list A) :
  Permutation (a :: l) (insert_by key a l).
Proof.
  induction l as [|b t IH]; simpl; [reflexivity|].
  destruct (key a <=? key b)%Z; [reflexivity|].
  rewrite perm_swap. now constructor.
Qed.

Lemma sorted_Permutation {A : Type} (key : A -> Z) (l : list A) :
  Permutation l (sorted key l).
Proof.
  induction l as [|a t IH]; simpl; [constructor|].
  rewrite <- insert_by_Permutation. now constructor.
Qed.

Lemma sorted_length {A : Type} (key : A -> Z) (l : list A) :
  length (sorted key l) = length l.
Proof. symmetry. apply Permutation_length, sorted_Permutation. Qed.

Lemma insert_by_ascending {A : Type} (key : A -> Z) (a : A) (l : list A) :
  StronglySorted (fun x y => (key x <= key y)%Z) l ->
  StronglySorted (fun x y => (key x <= key y)%Z) (insert_by key a l).
Proof.
  induction 1 as [|b t Hs IH Hb]; simpl.
  - repeat constructor.
  - destruct (key a <=? key b)%Z eqn:E.
    + apply Z.leb_le in E. constructor; [now constructor|].
      constructor; [assumption|].
      eapply Forall_impl; [|exact Hb]. simpl. intros; lia.
    + apply Z.leb_gt in E. constructor; [assumption|].
      eapply Permutation_Forall; [apply insert_by_Permutation|].
      constructor; [lia|assumption].
Qed.

Lemma sorted_ascending {A : Type} (key : A -> Z) (l : list A) :
  StronglySorted (fun x y => (key x <= key y)%Z) (sorted key l).
Proof.
  induction l as [|a t IH]; simpl; [constructor|]. now apply insert_by_ascending.
Qed.

(** ** The time-mapping guard *)

Section TimeMapping.

Context {collab : Collaborators}.

Lemma mapM_frame_time_unset (cams : list Camera) :
  cams <> [] ->
  mapM (fun c => frame_time None None (framenumber c)) cams = Raise TypeError.
Proof. destruct cams; [congruence|reflexivity]. Qed.

(** C1 (what the code does): the guard compares the model, not the frame
    rate, with the time function. With a model, a time function is refused
    with the [DatasetError] of the guard whether or not a frame rate comes
    with it, so also when it is the only one of the two; a call with
    neither passes the guard and fails later with another exception. *)
Theorem time_mapping_guard_ignores_camera_fps (ds : Dataset) (m : NvmModel)
    (f : Z -> Q) (camera_fps : option Q) :
  position_from_nvm (Some m) (Some f) camera_fps ds = (ds, Raise time_mapping_error)
  /\ orientation_from_nvm (Some m) (Some f) camera_fps ds
     = (ds, Raise time_mapping_error)
  /\ (exists e, position_from_nvm (Some m) None None ds = (ds, Raise e)
                /\ forall msg, e <> DatasetError msg)
  /\ (exists e, orientation_from_nvm (Some m) None None ds = (ds, Raise e)
                /\ forall msg, e <> DatasetError msg).
Proof.
  split; [reflexivity|]. split; [reflexivity|].
  unfold position_from_nvm, orientation_from_nvm. simpl. unfold lift.
  destruct (sorted framenumber (cameras m)) as [|c cams] eqn:E.
  - split.
    + exists ValueError. split; [reflexivity|discriminate].
    + exists IndexError. split; [reflexivity|discriminate].
  - split; exists TypeError; (split; [reflexivity|discriminate]).
Qed.

End TimeMapping.

(** ** Gyro registration *)

Section GyroSource.

Context {collab : Collaborators}.

(** C2 (what the code does): for 3-wide data with matching, non-uniform
    timestamps on a builder without a gyro source, [add_source_gyro] raises
    its [DatasetError] before integrating, but it has stored the data and the
    timestamps by then; every later well-shaped [add_source_gyro] on that
    builder is refused as a second gyro source. *)
Theorem add_source_gyro_nonuniform_keeps_source (b : DatasetBuilder)
    (gyro_data : Array2) (t0 t1 : Q) (rest : list Q) :
  let gyro_times := t0 :: t1 :: rest in
  let b' := fst (add_source_gyro gyro_data gyro_times b) in
  _gyro_data b = None ->
  shape gyro_data = (length gyro_times, 3%nat) ->
  allclose (diff gyro_times) (t1 - t0) = false ->
  snd (add_source_gyro gyro_data gyro_times b)
    = Raise (DatasetError "Gyro samples must be uniformly sampled")
  /\ _gyro_data b' = Some gyro_data
  /\ _gyro_times b' = Some gyro_times
  /\ _gyro_quat b' = _gyro_quat b
  /\ b' <> b
  /\ forall (d : Array2) (t : list Q),
       shape d = (length t, 3%nat) ->
       add_source_gyro d t b'
       = (b', Raise (DatasetError "Can not add multiple gyro sources")).
Proof.
  intros gyro_times b' Hb Hs Hc. subst b' gyro_times.
  assert (E : add_source_gyro gyro_data (t0 :: t1 :: rest) b
              = (mkDatasetBuilder (_nvm_model b) (_nvm_camera_fps b) (Some gyro_data)
                   (Some (t0 :: t1 :: rest)) (_gyro_quat b) (_orientation_source b)
                   (_position_source b) (_landmark_source b),
                 Raise (DatasetError "Gyro samples must be uniformly sampled"))).
  { rewrite add_source_gyro_fresh by assumption.
    rewrite py_index_1, py_index_0. cbv zeta. rewrite Hc. reflexivity. }
  rewrite E. cbn [fst snd _gyro_data _gyro_times _gyro_quat]. repeat split.
  - intros Heq. rewrite <- Heq in Hb. discriminate.
  - intros d t Hd. unfold add_source_gyro. rewrite Hd, Nat.eqb_refl. reflexivity.
Qed.

End GyroSource.

Lemma add_source_gyro_nonuniform_keeps_source_witness :
  let gyro_data := mkArray2 3 [[0; 0; 0]; [0; 0; 0]; [0; 0; 0]] in
  let gyro_times := [0; 1 # 100; 3 # 100] in
  let b' := fst (add_source_gyro (collab := stand_in) gyro_data gyro_times
                   DatasetBuilder_init) in
  snd (add_source_gyro (collab := stand_in) gyro_data gyro_times DatasetBuilder_init)
    = Raise (DatasetError "Gyro samples must be uniformly sampled")
  /\ _gyro_data b' = Some gyro_data
  /\ _gyro_times b' = Some gyro_times
  /\ _gyro_quat b' = None
  /\ b' <> DatasetBuilder_init
  /\ forall (d : Array2) (t : list Q),
       shape d = (length t, 3%nat) ->
       add_source_gyro (collab := stand_in) d t b'
       = (b', Raise (DatasetError "Can not add multiple gyro sources")).
Proof.
  apply (add_source_gyro_nonuniform_keeps_source (collab := stand_in)
           DatasetBuilder_init (mkArray2 3 [[0; 0; 0]; [0; 0; 0]; [0; 0; 0]])
           0 (1 # 100) [3 # 100]); reflexivity.
Defined.

(** ** Masks and first indices *)

Lemma flatnonzero_from_first (k : nat) : forall (s : Z) (mask : list bool),
  nth_error mask k = Some true ->
  (forall j, (j < k)%nat -> nth_error mask j = Some false) ->
  exists rest, flatnonzero_from s mask = (s + Z.of_nat k)%Z :: rest.
Proof.
  induction k as [|k IH]; intros s [|b mask] Hk Hj; try discriminate.
  - simpl in Hk. injection Hk as ->. simpl. rewrite Z.add_0_r. eauto.
  - simpl in Hk. pose proof (Hj 0%nat (Nat.lt_0_succ k)) as H0. simpl in H0.
    injection H0 as ->. simpl.
    destruct (IH (s + 1)%Z mask Hk) as [rest Hr].
    + intros j Hlt. apply (Hj (S j)). lia.
    + exists rest. rewrite Hr. f_equal. lia.
Qed.

Lemma flatnonzero_from_none (mask : list bool) : forall s : Z,
  (forall b, In b mask -> b = false) -> flatnonzero_from s mask = [].
Proof.
  induction mask as [|b mask IH]; intros s H; [reflexivity|]. simpl.
  rewrite (H b (or_introl eq_refl)). apply IH. intros; apply H; now right.
Qed.

Lemma flatnonzero_from_some (mask : list bool) : forall s : Z,
  In true mask ->
  exists k, nth_error mask k = Some true
            /\ forall j, (j < k)%nat -> nth_error mask j = Some false.
Proof.
  induction mask as [|b mask IH]; intros s H; [contradiction|].
  destruct b.
  - exists 0%nat. split; [reflexivity|]. intros j Hj; lia.
  - destruct H as [H|H]; [discriminate|].
    destruct (IH s H) as (k & Hk & Hlt). exists (S k). split; [exact Hk|].
    intros [|j] Hj; [reflexivity|]. apply Hlt. lia.
Qed.

(** [np.flatnonzero(mask)[0]] is the first index at which the mask holds. *)
Lemma first_index (mask : list bool) (k : nat) :
  nth_error mask k = Some true ->
  (forall j, (j < k)%nat -> nth_error mask j = Some false) ->
  py_index (flatnonzero mask) 0 = Ok (Z.of_nat k).
Proof.
  intros Hk Hj. destruct (flatnonzero_from_first k 0 mask Hk Hj) as [rest Hr].
  unfold flatnonzero. rewrite Hr. apply py_index_0.
Qed.

(** ... and there is none when the mask holds nowhere. *)
Lemma first_index_none (mask : list bool) :
  (forall b, In b mask -> b = false) ->
  py_index (flatnonzero mask) 0 = Raise IndexError.
Proof.
  intros H. unfold flatnonzero. rewrite flatnonzero_from_none by assumption.
  reflexivity.
Qed.

(** ** Comprehensions *)

Lemma mapM_pointwise {A B : Type} (f : A -> result B) (l : list A) :
  forall bs : list B,
  length l = length bs ->
  (forall k a b, nth_error l k = Some a -> nth_error bs k = Some b -> f a = Ok b) ->
  mapM f l = Ok bs.
Proof.
  induction l as [|a l IH]; intros [|b bs] Hlen H; try discriminate; [reflexivity|].
  simpl. rewrite (H 0%nat a b eq_refl eq_refl). simpl.
  rewrite (IH bs); [reflexivity|simpl in Hlen; lia|].
  intros k a' b' Ha Hb. exact (H (S k) a' b' Ha Hb).
Qed.

Lemma mapM_total {A B : Type} (f : A -> result B) (l : list A) :
  (forall a, In a l -> exists b, f a = Ok b) ->
  exists bs, mapM f l = Ok bs
             /\ length bs = length l
             /\ forall k a, nth_error l k = Some a ->
                  exists b, nth_error bs k = Some b /\ f a = Ok b.
Proof.
  induction l as [|a l IH]; intros H.
  - exists []. repeat split. intros [|k] a Ha; discriminate.
  - destruct (H a (or_introl eq_refl)) as [b Hb].
    destruct IH as (bs & Hbs & Hlen & Hnth); [intros; apply H; now right|].
    exists (b :: bs). simpl. rewrite Hb. simpl. rewrite Hbs. simpl.
    repeat split; [now rewrite Hlen|].
    intros [|k] a' Ha'; simpl in *.
    + injection Ha' as <-. eauto.
    + now apply Hnth.
Qed.

Lemma mapM_Ok_map {A B : Type} (g : A -> B) (l : list A) :
  mapM (fun a => Ok (g a)) l = Ok (map g l).
Proof. induction l as [|a l IH]; simpl; [|rewrite IH]; reflexivity. Qed.

(** ** Tolerances and [linspace] *)

Lemma isclose_Qeq (x t : Q) : x == t -> isclose x t = true.
Proof.
  intros H. unfold isclose. apply Qle_bool_iff.
  assert (E : x - t == 0) by lra. rewrite E.
  pose proof (Qabs_nonneg t) as Ht. change (Qabs 0) with 0.
  unfold atol, rtol. lra.
Qed.

Lemma linspace_length (a b : Q) (n : nat) : length (linspace a b n) = n.
Proof.
  destruct n as [|[|n]]; try reflexivity.
  unfold linspace. rewrite length_app, length_map, length_seq. simpl. lia.
Qed.


Lemma linspace_bounded (a b : Q) (n : nat) (t : Q) :
  In t (linspace a b n) -> t <= a \/ t <= b.
Proof.
  destruct n as [|[|n]].
  - contradiction.
  - intros [<-|[]]. left. apply Qle_refl.
  - unfold linspace. intros H. apply in_app_or in H. destruct H as [H|[<-|[]]].
    + apply in_map_iff in H. destruct H as (i & <- & Hi). apply in_seq in Hi.
      set (d := inject_Z (Z.of_nat (S n))).
      set (x := inject_Z (Z.of_nat i)).
      assert (Hd : 0 < d) by (unfold d; rewrite <- (Zlt_Qlt 0); lia).
      assert (Hx0 : 0 <= x) by (unfold x; rewrite <- (Zle_Qle 0); lia).
      assert (Hxd : x <= d) by (unfold x, d; rewrite <- Zle_Qle; lia).
      set (step := (b - a) / d).
      assert (Hstep : d * step == b - a).
      { unfold step. field. intros E. rewrite E in Hd. now apply Qlt_irrefl in Hd. }
      destruct (Qlt_le_dec b a) as [Hba|Hab].
      * left. nra.
      * right. nra.
    + right. apply Qle_refl.
Qed.

Lemma py_index_pred_total {A : Type} (l : list A) (k : nat) :
  (k < length l)%nat -> exists y, py_index l (Z.of_nat k - 1) = Ok y.
Proof.
  intros Hk. destruct k as [|k].
  - destruct (nth_error l (length l - 1)) as [y|] eqn:E.
    + exists y. now apply py_index_neg1.
    + apply nth_error_None in E. lia.
  - destruct (nth_error l k) as [y|] eqn:E.
    + exists y. replace (Z.of_nat (S k) - 1)%Z with (Z.of_nat k) by lia.
      now apply py_index_nat.
    + apply nth_error_None in E. lia.
Qed.

Lemma Qge_bool_false (x t : Q) : x < t -> Qge_bool x t = false.
Proof.
  intros H. unfold Qge_bool. destruct (Qle_bool t x) eqn:E; [|reflexivity].
  apply Qle_bool_iff in E. lra.
Qed.

Lemma Qge_bool_true (x t : Q) : t <= x -> Qge_bool x t = true.
Proof. intros H. unfold Qge_bool. now apply Qle_bool_iff. Qed.

(** ** Resampling *)

Section Resampling.

Context {collab : Collaborators}.

(** [pack] and [unpack] are inverse to each other on quaternions. *)
Lemma pack_unpack (q : Quaternion) : pack (unpack q) = q.
Proof. now destruct q. Qed.



(** A target time not beyond the larger end of the series has a value. *)
Lemma resample_at_total (qa : list Quaternion) (ts : list Q) (t a b : Q) :
  length qa = length ts ->
  nth_error ts 0 = Some a -> nth_error ts (length ts - 1) = Some b ->
  t <= a \/ t <= b ->
  exists q, resample_at qa ts t = Ok q.
Proof.
  intros Hlen Ha Hb Ht.
  assert (Hin : In true (map (fun y => Qge_bool y t) ts)).
  { apply in_map_iff. destruct Ht as [Ht|Ht].
    - exists a. split; [now apply Qge_bool_true|]. eapply nth_error_In; eassumption.
    - exists b. split; [now apply Qge_bool_true|]. eapply nth_error_In; eassumption. }
  destruct (flatnonzero_from_some _ 0 Hin) as (k & Hk & Hfirst).
  assert (Hklt : (k < length ts)%nat).
  { rewrite <- (length_map (fun y => Qge_bool y t)). apply nth_error_Some. congruence. }
  unfold resample_at. rewrite (first_index _ k Hk Hfirst). cbn [bind result_Monad].
  destruct (nth_error ts k) as [x|] eqn:Ex; [|apply nth_error_None in Ex; lia].
  destruct (nth_error qa k) as [q|] eqn:Eq; [|apply nth_error_None in Eq; lia].
  rewrite (py_index_nat ts k x Ex). cbn [bind result_Monad].
  destruct (isclose x t).
  - exists q. now apply py_index_nat.
  - destruct (py_index_pred_total ts k Hklt) as [t0 Ht0].
    destruct (py_index_pred_total qa k) as [q0 Hq0]; [lia|].
    rewrite Ht0. cbn [bind result_Monad]. rewrite Hq0. cbn [bind result_Monad].
    rewrite (py_index_nat qa k q Eq). cbn [bind result_Monad]. eauto.
Qed.

(** [resample_quaternion_array] with the default count, on a series that is
    not empty: it returns, with the [linspace] grid between the first and
    the last timestamp and one value per grid time. *)
Lemma resample_default_total (qa : list Quaternion) (ts : list Q) (a b : Q) :
  length qa = length ts ->
  nth_error ts 0 = Some a -> nth_error ts (length ts - 1) = Some b ->
  exists new_q,
    resample_quaternion_array qa ts None
    = Ok (new_q, linspace a b (length qa))
    /\ length new_q = length qa
    /\ forall k t, nth_error (linspace a b (length qa)) k = Some t ->
         exists q, nth_error new_q k = Some q /\ resample_at qa ts t = Ok q.
Proof.
  intros Hlen Ha Hb. unfold resample_quaternion_array.
  rewrite (py_index_first ts a Ha).
  cbn [bind result_Monad]. rewrite (py_index_neg1 ts b Hb). cbn [bind result_Monad].
  destruct (mapM_total (resample_at qa ts) (linspace a b (length qa)))
    as (new_q & Hq & Hl & Hnth).
  { intros t Ht. apply (resample_at_total qa ts t a b Hlen Ha Hb).
    now apply linspace_bounded in Ht. }
  exists new_q. rewrite Hq. cbn [bind result_Monad].
  rewrite Hl, linspace_length. auto.
Qed.

End Resampling.




Section ResampleDefault.

Context {collab : Collaborators}.



End ResampleDefault.

Lemma mapM_ext {A B : Type} (f g : A -> result B) (l : list A) :
  (forall a, f a = g a) -> mapM f l = mapM g l.
Proof.
  intros H. induction l as [|a l IH]; [reflexivity|].
  cbn [mapM]. now rewrite H, IH.
Qed.

Section RoundedAndExact.

Context {collab : Collaborators}.

(** With exact arithmetic the rounded resampling is the exact one. *)
Lemma resample_fl_exact (qa : list Quaternion) (ts : list Q) (resize : option nat) :
  (forall x, fl x = x) ->
  resample_quaternion_array_fl qa ts resize = resample_quaternion_array qa ts resize.
Proof.
  intros Hfl.
  assert (Hlin : forall a b n, linspace_fl a b n = linspace a b n).
  { intros a b [|[|n]]; try reflexivity. unfold linspace_fl, linspace.
    f_equal. apply map_ext. intros i. now rewrite !Hfl. }
  assert (Hat : forall t, resample_at_fl qa ts t = resample_at qa ts t).
  { intros t. unfold resample_at_fl, resample_at.
    destruct (py_index (flatnonzero _) 0) as [i|e]; [|reflexivity].
    cbn [bind result_Monad].
    destruct (py_index ts i) as [t1|e]; [|reflexivity]. cbn [bind result_Monad].
    unfold isclose_fl, isclose. rewrite !Hfl.
    destruct (Qle_bool _ _); [reflexivity|].
    destruct (py_index ts (i - 1)) as [t0|e]; [|reflexivity].
    cbn [bind result_Monad]. now rewrite !Hfl. }
  unfold resample_quaternion_array_fl, resample_quaternion_array.
  destruct (py_index ts 0) as [a|e]; [|reflexivity]. cbn [bind result_Monad].
  destruct (py_index ts (-1)) as [b|e]; [|reflexivity]. cbn [bind result_Monad].
  rewrite Hlin. now rewrite (mapM_ext _ _ _ Hat).
Qed.

End RoundedAndExact.


Lemma Qgt_bool_true (x y : Q) : Qgt_bool x y = true <-> y < x.
Proof.
  unfold Qgt_bool. destruct (Qle_bool x y) eqn:E; simpl.
  - apply Qle_bool_iff in E. split; [discriminate|intros; lra].
  - split; [intros _|reflexivity]. apply Qnot_le_lt. intros H.
    apply Qle_bool_iff in H. congruence.
Qed.

Lemma Qgt_bool_false (x y : Q) : Qgt_bool x y = false <-> x <= y.
Proof.
  unfold Qgt_bool. destruct (Qle_bool x y) eqn:E; simpl.
  - apply Qle_bool_iff in E. tauto.
  - split; [discriminate|]. intros H. apply Qle_bool_iff in H. congruence.
Qed.

Lemma strictly_increasingb_head (l : list Q) : forall x : Q,
  strictly_increasingb (x :: l) = true ->
  (forall y, In y l -> x < y) /\ strictly_increasingb l = true.
Proof.
  induction l as [|y l IH]; intros x H.
  - split; [intros y []|reflexivity].
  - change (Qgt_bool y x && strictly_increasingb (y :: l) = true) in H.
    apply andb_true_iff in H. destruct H as [Hxy Hl].
    apply Qgt_bool_true in Hxy. split; [|exact Hl].
    destruct (IH y Hl) as [Hy _].
    intros z [<-|Hz]; [exact Hxy|]. pose proof (Hy z Hz). lra.
Qed.

Lemma strictly_increasingb_sound (l : list Q) :
  strictly_increasingb l = true -> strictly_increasing l.
Proof.
  induction l as [|x l IH]; intros H i j a b Hij Ha Hb.
  - destruct i; discriminate.
  - destruct (strictly_increasingb_head l x H) as [Hx Hl].
    destruct j as [|j]; [lia|]. simpl in Hb. destruct i as [|i].
    + simpl in Ha. injection Ha as <-. apply Hx. eapply nth_error_In; eassumption.
    + simpl in Ha. apply (IH Hl i j a b); [lia|assumption|assumption].
Qed.

(** ** Resampling uniformly spaced doubles *)



(** ** Interpolation at one time *)

Section Interpolation.

Context {collab : Collaborators}.

(** At or after the last timestamp no timestamp is later: the lookup is
    empty and indexing it raises. *)
Lemma interpolate_at_or_after_last (qa : list Quaternion) (qtimes : list Q) (t : Q) :
  (forall x, In x qtimes -> x <= t) ->
  quaternion_array_interpolate qa qtimes t = Raise IndexError.
Proof.
  intros H. unfold quaternion_array_interpolate.
  rewrite first_index_none; [reflexivity|].
  intros b Hb. apply in_map_iff in Hb. destruct Hb as (x & <- & Hx).
  apply Qgt_bool_false. now apply H.
Qed.

(** From the first timestamp up to the last, the result is the slerp of
    the bracketing samples at the clamped time ratio. *)
Lemma interpolate_inside (qa : list Quaternion) (qtimes : list Q) (t : Q)
    (k : nat) (t0 t1 : Q) (q0 q1 : Quaternion) :
  strictly_increasing qtimes ->
  nth_error qtimes k = Some t0 -> nth_error qtimes (S k) = Some t1 ->
  nth_error qa k = Some q0 -> nth_error qa (S k) = Some q1 ->
  t0 <= t -> t < t1 ->
  quaternion_array_interpolate qa qtimes t
  = Ok (quaternion_slerp q0 q1 (clip ((t - t0) / (t1 - t0)) 0 1)).
Proof.
  intros Hinc Ht0 Ht1 Hq0 Hq1 Hle Hlt. unfold quaternion_array_interpolate.
  rewrite (first_index _ (S k)).
  - cbn [bind result_Monad].
    replace (Z.of_nat (S k) - 1)%Z with (Z.of_nat k) by lia.
    rewrite (py_index_nat qa k q0 Hq0), (py_index_nat qa (S k) q1 Hq1).
    cbn [bind result_Monad].
    rewrite (py_index_nat qtimes k t0 Ht0), (py_index_nat qtimes (S k) t1 Ht1).
    reflexivity.
  - rewrite nth_error_map, Ht1. simpl. f_equal. now apply Qgt_bool_true.
  - intros j Hj. rewrite nth_error_map.
    destruct (nth_error qtimes j) as [y|] eqn:Ey.
    + simpl. f_equal. apply Qgt_bool_false.
      destruct (Nat.eq_dec j k) as [->|Hne].
      * rewrite Ht0 in Ey. injection Ey as <-. exact Hle.
      * assert (Hjk : (j < k)%nat) by lia.
        pose proof (Hinc j k y t0 Hjk Ey Ht0). lra.
    + apply nth_error_None in Ey.
      assert (S k < length qtimes)%nat by (apply nth_error_Some; congruence). lia.
Qed.

(** C3 (what the code does before the first timestamp): the lookup finds
    index 0, its predecessor index -1 wraps around to the last sample, and
    the clamped ratio is 1: the call returns the slerp from the last sample
    to the first at 1 and raises nothing. *)
Theorem interpolate_before_first_wraps_around (qa : list Quaternion)
    (qtimes : list Q) (t t_first t_last : Q) (q_first q_last : Quaternion) :
  nth_error qtimes 0 = Some t_first ->
  nth_error qtimes (length qtimes - 1) = Some t_last ->
  nth_error qa 0 = Some q_first ->
  nth_error qa (length qa - 1) = Some q_last ->
  t_first < t_last ->
  t < t_first ->
  quaternion_array_interpolate qa qtimes t = Ok (quaternion_slerp q_last q_first 1).
Proof.
  intros Hf Hl Hqf Hql Hfl Ht. unfold quaternion_array_interpolate.
  rewrite (first_index _ 0).
  - cbn [bind result_Monad]. change (Z.of_nat 0 - 1)%Z with (-1)%Z.
    change (Z.of_nat 0) with 0%Z.
    rewrite (py_index_neg1 qa q_last Hql). cbn [bind result_Monad].
    rewrite (py_index_first qa q_first Hqf). cbn [bind result_Monad].
    rewrite (py_index_neg1 qtimes t_last Hl). cbn [bind result_Monad].
    rewrite (py_index_first qtimes t_first Hf). cbn [bind result_Monad].
    do 2 f_equal. unfold clip.
    set (x := (t - t_last) / (t_first - t_last)).
    assert (Hx : x * (t_first - t_last) == t - t_last).
    { unfold x. field. lra. }
    assert (H1 : 1 <= x) by nra.
    destruct (Qle_bool x 0) eqn:E0; [apply Qle_bool_iff in E0; lra|].
    destruct (Qle_bool 1 x) eqn:E1; [reflexivity|].
    apply Qle_bool_iff in H1. congruence.
  - rewrite nth_error_map, Hf. simpl. f_equal. now apply Qgt_bool_true.
  - intros j Hj. lia.
Qed.

End Interpolation.

(** ** [argmin] *)

Lemma argmin_from_keeps (l : list Q) : forall (k best : Z) (bestv : Q),
  (forall x, In x l -> bestv <= x) -> argmin_from k best bestv l = best.
Proof.
  induction l as [|x l IH]; intros k best bestv H; [reflexivity|]. simpl.
  assert (E : Qgt_bool bestv x = false)
    by (apply Qgt_bool_false, H; now left).
  rewrite E. apply IH. intros y Hy. apply H. now right.
Qed.

Lemma argmin_from_finds (l : list Q) : forall (k best : Z) (bestv : Q) (j : nat) (v : Q),
  nth_error l j = Some v ->
  v < bestv ->
  (forall i x, nth_error l i = Some x -> v <= x /\ ((i < j)%nat -> v < x)) ->
  argmin_from k best bestv l = (k + Z.of_nat j)%Z.
Proof.
  induction l as [|x l IH]; intros k best bestv j v Hj Hv Hmin.
  - destruct j; discriminate.
  - simpl. destruct j as [|j].
    + simpl in Hj. injection Hj as ->.
      assert (E : Qgt_bool bestv v = true) by now apply Qgt_bool_true.
      rewrite E. rewrite argmin_from_keeps; [lia|].
      intros y Hy. apply In_nth_error in Hy. destruct Hy as [i Hi].
      exact (proj1 (Hmin (S i) y Hi)).
    + simpl in Hj.
      assert (Hvx : v < x) by (apply (Hmin 0%nat x eq_refl); lia).
      assert (Hrest : forall i y, nth_error l i = Some y ->
                v <= y /\ ((i < j)%nat -> v < y)).
      { intros i y Hi. destruct (Hmin (S i) y Hi) as [H1 H2].
        split; [exact H1|]. intros Hlt. apply H2. lia. }
      destruct (Qgt_bool bestv x).
      * rewrite (IH (k + 1)%Z k x j v Hj Hvx Hrest). lia.
      * rewrite (IH (k + 1)%Z best bestv j v Hj Hv Hrest). lia.
Qed.

(** [argmin] returns the first index of a least entry. *)
Lemma argmin_first_least (l : list Q) (j : nat) (v : Q) :
  nth_error l j = Some v ->
  (forall i x, nth_error l i = Some x -> v <= x /\ ((i < j)%nat -> v < x)) ->
  argmin l = Z.of_nat j.
Proof.
  intros Hj Hmin. destruct l as [|x l]; [destruct j; discriminate|].
  unfold argmin. destruct j as [|j].
  - simpl in Hj. injection Hj as ->. apply argmin_from_keeps.
    intros y Hy. apply In_nth_error in Hy. destruct Hy as [i Hi].
    exact (proj1 (Hmin (S i) y Hi)).
  - simpl in Hj.
    rewrite (argmin_from_finds l 1 0 x j v Hj).
    + lia.
    + apply (Hmin 0%nat x eq_refl). lia.
    + intros i y Hi. destruct (Hmin (S i) y Hi) as [H1 H2].
      split; [exact H1|]. intros Hlt. apply H2. lia.
Qed.

Lemma argmin_map_first_least (d : Q -> Q) (l : list Q) (j : nat) :
  first_least d l j -> argmin (map d l) = Z.of_nat j.
Proof.
  intros (g & Hg & Hmin).
  apply (argmin_first_least _ j (d g)).
  - now rewrite nth_error_map, Hg.
  - intros i x Hi. rewrite nth_error_map in Hi.
    destruct (nth_error l i) as [y|] eqn:Ey; [|discriminate].
    simpl in Hi. injection Hi as <-. exact (Hmin i y Ey).
Qed.

(** ** Camera times *)

Lemma divide_nonzero (n : Z) (fps : Q) :
  ~ fps == 0 -> divide n (Some fps) = Ok (inject_Z n / fps).
Proof.
  intros H. unfold divide. destruct (Qeq_bool fps 0) eqn:E; [|reflexivity].
  apply Qeq_bool_iff in E. contradiction.
Qed.

Lemma camera_times_nonzero (cams : list Camera) (fps : Q) :
  ~ fps == 0 ->
  mapM (fun c => divide (framenumber c) (Some fps)) cams
  = Ok (map (fun c => inject_Z (framenumber c) / fps) cams).
Proof.
  intros H. induction cams as [|c cams IH]; [reflexivity|].
  cbn [mapM]. rewrite divide_nonzero by assumption. cbn [bind result_Monad].
  rewrite IH. reflexivity.
Qed.

Lemma flip_vector_part_spec (q : Quaternion) :
  qw (flip_vector_part q) == qw q
  /\ qx (flip_vector_part q) == - qx q
  /\ qy (flip_vector_part q) == - qy q
  /\ qz (flip_vector_part q) == - qz q.
Proof. unfold flip_vector_part. simpl. repeat split; ring. Qed.

(** ** Alignment of the gyro stream to the reconstruction *)

Section Alignment.

Context {collab : Collaborators}.

Lemma divide_fl_nonzero (n : Z) (fps : Q) :
  ~ fps == 0 -> divide_fl n (Some fps) = Ok (fl (fl (inject_Z n) / fps)).
Proof.
  intros H. unfold divide_fl. destruct (Qeq_bool fps 0) eqn:E; [|reflexivity].
  apply Qeq_bool_iff in E. contradiction.
Qed.

Lemma camera_times_fl_nonzero (cams : list Camera) (fps : Q) :
  ~ fps == 0 ->
  mapM (fun c => divide_fl (framenumber c) (Some fps)) cams
  = Ok (map (fun c => fl (fl (inject_Z (framenumber c)) / fps)) cams).
Proof.
  intros H. induction cams as [|c cams IH]; [reflexivity|].
  cbn [mapM]. rewrite divide_fl_nonzero by assumption. cbn [bind result_Monad].
  rewrite IH. reflexivity.
Qed.

Lemma divide_fl_raises (n : Z) (fps : option Q) (e : exn) :
  divide_fl n fps = Raise e -> e = TypeError \/ e = ZeroDivisionError.
Proof.
  unfold divide_fl. destruct fps as [r|]; [|intros H; left; congruence].
  destruct (Qeq_bool r 0); [intros H; right; congruence|discriminate].
Qed.

Lemma camera_times_fl_raises (cams : list Camera) (fps : option Q) (e : exn) :
  mapM (fun c => divide_fl (framenumber c) fps) cams = Raise e ->
  e = TypeError \/ e = ZeroDivisionError.
Proof.
  intros H. induction cams as [|c cams IH]; [discriminate|].
  cbn [mapM bind result_Monad] in H.
  destruct (divide_fl (framenumber c) fps) as [t|e'] eqn:Ec.
  - destruct (mapM _ cams) as [ts|e'']; [discriminate|].
    injection H as ->. now apply IH.
  - injection H as ->. now apply divide_fl_raises in Ec.
Qed.

(** C5 (amended): with a reconstruction (frame rate not zero) and a gyro
    source, let [cam_ref] be the first camera in ascending frame order whose
    time, the double computed for [framenumber / fps], is at or after the
    first gyro timestamp, and [j] the first index of the gyro timestamp
    nearest to that time by the absolute value of the computed difference,
    with a sample after it. Then the alignment step returns the integration
    of the gyro rows from [j] on, at the computed interval of the first two
    remaining timestamps and started from the conjugate of [cam_ref]'s
    orientation, with the vector part of every quaternion negated, together
    with the gyro timestamps from [j] on. This holds whatever the rounding
    [fl] is. *)
Theorem nvm_aligned_imu_orientations_spec (b : DatasetBuilder) (m : NvmModel)
    (fps : Q) (gyro_data : Array2) (gyro_times : list Q) (g0 : Q) (k j : nat)
    (cam_ref : Camera) (t0 t1 : Q) :
  let cams := sorted framenumber (cameras m) in
  let cam_time := fun c : Camera => fl (fl (inject_Z (framenumber c)) / fps) in
  _nvm_model b = Some m ->
  _nvm_camera_fps b = Some fps ->
  ~ fps == 0 ->
  _gyro_data b = Some gyro_data ->
  _gyro_times b = Some gyro_times ->
  nth_error gyro_times 0 = Some g0 ->
  nth_error cams k = Some cam_ref ->
  g0 <= cam_time cam_ref ->
  (forall i c, (i < k)%nat -> nth_error cams i = Some c -> cam_time c < g0) ->
  first_least (fun g => Qabs (fl (g - cam_time cam_ref))) gyro_times j ->
  nth_error gyro_times j = Some t0 ->
  nth_error gyro_times (S j) = Some t1 ->
  _nvm_aligned_imu_orientations b
  = Ok (quaternion_rows
          (map flip_vector_part
             (integrate_gyro_quaternion_uniform
                (mkArray2 (ncols gyro_data) (skipn j (rows gyro_data)))
                (fl (t1 - t0)) (Some (conjugate (orientation cam_ref))))),
        skipn j gyro_times)
  /\ StronglySorted (fun c c' => (framenumber c <= framenumber c')%Z) cams
  /\ Permutation (cameras m) cams
  /\ (forall q, qw (flip_vector_part q) == qw q
                /\ qx (flip_vector_part q) == - qx q
                /\ qy (flip_vector_part q) == - qy q
                /\ qz (flip_vector_part q) == - qz q).
Proof.
  intros cams cam_time Hm Hfps Hnz Hgd Hgt Hg0 Hk Hge Hbefore Hnear Ht0 Ht1.
  split; [|split; [apply sorted_ascending|split;
             [apply sorted_Permutation|apply flip_vector_part_spec]]].
  unfold _nvm_aligned_imu_orientations. rewrite Hm, Hfps, Hgd, Hgt.
  cbn [attr subscriptable bind result_Monad]. fold cams.
  rewrite camera_times_fl_nonzero by assumption. fold cam_time.
  cbn [bind result_Monad].
  rewrite (py_index_first gyro_times g0 Hg0). cbn [bind result_Monad].
  rewrite (first_index _ k).
  - cbn [bind result_Monad].
    rewrite (py_index_nat cams k cam_ref Hk). cbn [bind result_Monad].
    rewrite (py_index_nat (map cam_time cams) k (cam_time cam_ref))
      by (now rewrite nth_error_map, Hk).
    cbn [bind result_Monad].
    rewrite (argmin_map_first_least _ gyro_times j Hnear).
    unfold py_slice_from. rewrite Nat2Z.id.
    rewrite (py_index_second (skipn j gyro_times) t1)
      by (rewrite nth_error_skipn; now replace (j + 1)%nat with (S j) by lia).
    cbn [bind result_Monad].
    rewrite (py_index_first (skipn j gyro_times) t0)
      by (rewrite nth_error_skipn; now rewrite Nat.add_0_r).
    reflexivity.
  - rewrite !nth_error_map, Hk. simpl. f_equal. now apply Qge_bool_true.
  - intros i Hi. rewrite !nth_error_map.
    destruct (nth_error cams i) as [c|] eqn:Ec.
    + simpl. f_equal. apply Qge_bool_false. exact (Hbefore i c Hi Ec).
    + apply nth_error_None in Ec.
      assert (k < length cams)%nat by (apply nth_error_Some; congruence). lia.
Qed.

(** The two ways the step raises on a well-formed builder: no camera at or
    after the first gyro timestamp, or no gyro sample after the nearest one. *)
Lemma nvm_aligned_no_camera_in_range (b : DatasetBuilder) (m : NvmModel) (fps : Q)
    (gyro_times : list Q) (g0 : Q) :
  _nvm_model b = Some m ->
  _nvm_camera_fps b = Some fps ->
  ~ fps == 0 ->
  _gyro_times b = Some gyro_times ->
  nth_error gyro_times 0 = Some g0 ->
  (forall c, In c (cameras m) -> fl (fl (inject_Z (framenumber c)) / fps) < g0) ->
  _nvm_aligned_imu_orientations b = Raise IndexError.
Proof.
  intros Hm Hfps Hnz Hgt Hg0 Hall.
  unfold _nvm_aligned_imu_orientations. rewrite Hm, Hfps, Hgt.
  cbn [attr subscriptable bind result_Monad].
  rewrite camera_times_fl_nonzero by assumption. cbn [bind result_Monad].
  rewrite (py_index_first gyro_times g0 Hg0). cbn [bind result_Monad].
  rewrite first_index_none; [reflexivity|].
  intros x Hx. apply in_map_iff in Hx. destruct Hx as (t & <- & Ht).
  apply in_map_iff in Ht. destruct Ht as (c & <- & Hc).
  apply Qge_bool_false, Hall.
  eapply Permutation_in; [symmetry; apply sorted_Permutation|exact Hc].
Qed.

Lemma nvm_aligned_nearest_is_last (b : DatasetBuilder) (m : NvmModel) (fps : Q)
    (gyro_data : Array2) (gyro_times : list Q) (g0 : Q) (k j : nat) (cam_ref : Camera) :
  let cams := sorted framenumber (cameras m) in
  let cam_time := fun c : Camera => fl (fl (inject_Z (framenumber c)) / fps) in
  _nvm_model b = Some m ->
  _nvm_camera_fps b = Some fps ->
  ~ fps == 0 ->
  _gyro_data b = Some gyro_data ->
  _gyro_times b = Some gyro_times ->
  nth_error gyro_times 0 = Some g0 ->
  nth_error cams k = Some cam_ref ->
  g0 <= cam_time cam_ref ->
  (forall i c, (i < k)%nat -> nth_error cams i = Some c -> cam_time c < g0) ->
  first_least (fun g => Qabs (fl (g - cam_time cam_ref))) gyro_times j ->
  S j = length gyro_times ->
  _nvm_aligned_imu_orientations b = Raise IndexError.
Proof.
  intros cams cam_time Hm Hfps Hnz Hgd Hgt Hg0 Hk Hge Hbefore Hnear Hlast.
  unfold _nvm_aligned_imu_orientations. rewrite Hm, Hfps, Hgd, Hgt.
  cbn [attr subscriptable bind result_Monad]. fold cams.
  rewrite camera_times_fl_nonzero by assumption. fold cam_time.
  cbn [bind result_Monad].
  rewrite (py_index_first gyro_times g0 Hg0). cbn [bind result_Monad].
  rewrite (first_index _ k).
  - cbn [bind result_Monad].
    rewrite (py_index_nat cams k cam_ref Hk). cbn [bind result_Monad].
    rewrite (py_index_nat (map cam_time cams) k (cam_time cam_ref))
      by (now rewrite nth_error_map, Hk).
    cbn [bind result_Monad].
    rewrite (argmin_map_first_least _ gyro_times j Hnear).
    unfold py_slice_from. rewrite Nat2Z.id.
    rewrite py_index_short; [reflexivity|].
    rewrite length_skipn. lia.
  - rewrite !nth_error_map, Hk. simpl. f_equal. now apply Qge_bool_true.
  - intros i Hi. rewrite !nth_error_map.
    destruct (nth_error cams i) as [c|] eqn:Ec.
    + simpl. f_equal. apply Qge_bool_false. exact (Hbefore i c Hi Ec).
    + apply nth_error_None in Ec.
      assert (k < length cams)%nat by (apply nth_error_Some; congruence). lia.
Qed.

End Alignment.

(** C5 (as stated, refuted): a builder holding a reconstruction (cameras at
    frames 0 and 60, 30 frames per second) and a gyro stream (six samples
    from 0.5 s to 1.75 s). The first camera at or after 0.5 s is the one at
    2 s, the nearest gyro sample is the last one, and the step raises
    [IndexError] where it reads the interval from the two timestamps that
    should remain; all numbers are doubles and every operation on them is
    exact, so the rounding plays no part. *)
Lemma alignment_raises_when_the_nearest_sample_is_the_last :
  _nvm_model example_builder_late_camera = Some example_model_late_camera
  /\ _gyro_data example_builder_late_camera = Some example_gyro_data
  /\ _gyro_times example_builder_late_camera = Some example_gyro_times
  /\ _nvm_aligned_imu_orientations (collab := binary64_unit) example_builder_late_camera
     = Raise IndexError
  /\ _nvm_aligned_imu_orientations (collab := stand_in) example_builder_late_camera
     = Raise IndexError
  /\ build (collab := binary64_unit) example_builder_late_camera = Raise IndexError.
Proof.
  repeat split; vm_compute; reflexivity.
Qed.

(** At a tie the rounding decides. Frames 3 and 6 at 30 frames per second
    and a gyro stream that starts at the double 0.1: the double computed for
    3/30 is that double, so with IEEE rounding the step starts from the
    camera at frame 3 and keeps all four gyro samples, while in exact
    arithmetic 3/30 lies below the double 0.1 and the camera at frame 6 would
    be taken. *)
Lemma alignment_at_a_tie :
  (exists q,
     _nvm_aligned_imu_orientations (collab := binary64_unit) example_builder_tie
     = Ok (q, [binary64 (1 # 10); binary64 (2 # 10); binary64 (3 # 10);
               binary64 (4 # 10)])
     /\ QuaternionArray q = map (fun _ => mkQuaternion 1 0 0 0) (seq 0 4))
  /\ (exists q,
        _nvm_aligned_imu_orientations (collab := stand_in) example_builder_tie
        = Ok (q, [binary64 (2 # 10); binary64 (3 # 10); binary64 (4 # 10)])
        /\ length (rows q) = 3%nat).
Proof.
  split; eexists; (split; [vm_compute; reflexivity|]).
  - vm_compute. reflexivity.
  - reflexivity.
Qed.

(** ** Building from the reconstruction alone *)

(** C4 (as stated, refuted): cameras at frames 0, 30 and 90 at 30 frames
    per second have times 0, 1 and 3; the position series keeps them, the
    orientation series is resampled to 0, 3/2 and 3. *)
Lemma build_all_nvm_orientation_times_differ :
  exists ds pos ori,
    build (collab := stand_in) example_builder_all_nvm = Ok ds
    /\ _position_data ds = Some pos
    /\ _orientation_data ds = Some ori
    /\ Forall2 Qeq (timestamps pos) [0; 1; 3]
    /\ Forall2 Qeq (timestamps ori) [0; 3 # 2; 3]
    /\ ~ Forall2 Qeq (timestamps pos) (timestamps ori)
    /\ timestamps pos <> timestamps ori.
Proof.
  eexists. eexists. eexists.
  split; [vm_compute; reflexivity|].
  split; [reflexivity|]. split; [reflexivity|].
  split; [repeat constructor|]. split; [repeat constructor|].
  split.
  - intros H. inversion H as [|x0 y0 l0 l0' _ Htail]. subst.
    inversion Htail as [|x1 y1 l1 l1' Hsecond _]. subst.
    vm_compute in Hsecond. discriminate.
  - discriminate.
Qed.

Section BuildFromReconstruction.

Context {collab : Collaborators}.

(** Rebuilding the trajectory writes the trajectory only and does not raise. *)
Lemma update_trajectory_frame (ds : Dataset) :
  exists tr,
    _update_trajectory ds
    = (mkDataset (_position_data ds) (_orientation_data ds) tr (landmarks ds), Ok tt).
Proof.
  destruct ds as [p o tr lms]. unfold _update_trajectory.
  cbn [bind Method_Monad get _position_data _orientation_data landmarks trajectory].
  destruct (truthy p && negb (truthy o)).
  { destruct p; [eexists; reflexivity|exists tr; reflexivity]. }
  destruct (truthy o && negb (truthy p)).
  { destruct o; [eexists; reflexivity|exists tr; reflexivity]. }
  destruct (truthy p && truthy o); [|exists tr; reflexivity].
  destruct p, o; try (exists tr; reflexivity). eexists; reflexivity.
Qed.

(** Position ingestion at a constant frame rate: the series is keyed by
    frame number over frame rate, in ascending frame order. *)
Lemma position_from_nvm_ok (m : NvmModel) (fps : Q) (ds : Dataset) :
  let cams := sorted framenumber (cameras m) in
  ~ fps == 0 -> cameras m <> [] ->
  exists tr,
    position_from_nvm (Some m) None (Some fps) ds
    = (mkDataset
         (Some (mkTimeSeries (map (fun c => inject_Z (framenumber c) / fps) cams)
                  (map position cams)))
         (_orientation_data ds) tr (landmarks ds), Ok tt).
Proof.
  intros cams Hnz Hne. unfold position_from_nvm.
  cbn [is_None Bool.eqb attr lift bind Method_Monad]. fold cams.
  change (fun c : Camera => frame_time None (Some fps) (framenumber c))
    with (fun c : Camera => divide (framenumber c) (Some fps)).
  rewrite camera_times_nonzero by assumption.
  assert (Hv : vstack_T (map position cams) = Ok (map position cams)).
  { destruct cams as [|c cs] eqn:E; [|reflexivity].
    apply sorted_nil_inv in E. contradiction. }
  rewrite Hv. unfold set_position_data. cbn [bind Method_Monad get put].
  destruct (update_trajectory_frame
              (mkDataset
                 (Some (mkTimeSeries (map (fun c => inject_Z (framenumber c) / fps) cams)
                          (map position cams)))
                 (_orientation_data ds) (trajectory ds) (landmarks ds))) as [tr Htr].
  exists tr. rewrite Htr. reflexivity.
Qed.

(** Orientation ingestion at a constant frame rate: the series is keyed by
    the [linspace] grid between the first and the last camera time. *)
Lemma orientation_from_nvm_ok (m : NvmModel) (fps : Q) (ds : Dataset) :
  let cams := sorted framenumber (cameras m) in
  let camera_times := map (fun c => inject_Z (framenumber c) / fps) cams in
  ~ fps == 0 -> cameras m <> [] ->
  exists tr new_q a z,
    orientation_from_nvm (Some m) None (Some fps) ds
    = (mkDataset (_position_data ds)
         (Some (mkTimeSeries (linspace a z (length camera_times)) new_q))
         tr (landmarks ds), Ok tt)
    /\ nth_error camera_times 0 = Some a
    /\ nth_error camera_times (length camera_times - 1) = Some z
    /\ length new_q = length camera_times.
Proof.
  intros cams camera_times Hnz Hne. unfold orientation_from_nvm.
  cbn [is_None Bool.eqb attr lift bind Method_Monad]. fold cams.
  change (fun c : Camera => frame_time None (Some fps) (framenumber c))
    with (fun c : Camera => divide (framenumber c) (Some fps)).
  rewrite camera_times_nonzero by assumption. fold camera_times.
  assert (Hlen : length (unflipped (map orientation cams)) = length camera_times).
  { unfold camera_times. now rewrite unflipped_length, !length_map. }
  assert (Hpos : (0 < length camera_times)%nat).
  { unfold camera_times. rewrite length_map.
    destruct cams as [|c cs] eqn:E; [|simpl; lia].
    apply sorted_nil_inv in E. contradiction. }
  destruct (nth_error camera_times 0) as [a|] eqn:Ea;
    [|apply nth_error_None in Ea; lia].
  destruct (nth_error camera_times (length camera_times - 1)) as [z|] eqn:Ez;
    [|apply nth_error_None in Ez; lia].
  destruct (resample_default_total (unflipped (map orientation cams)) camera_times
              a z Hlen Ea Ez) as (new_q & Hr & Hl & _).
  rewrite Hr. unfold set_orientation_data.
  cbn [bind Method_Monad get put fst snd].
  destruct (update_trajectory_frame
              (mkDataset (_position_data ds)
                 (Some (mkTimeSeries
                          (linspace a z (length (unflipped (map orientation cams))))
                          new_q))
                 (trajectory ds) (landmarks ds))) as [tr Htr].
  exists tr, new_q, a, z. rewrite Htr. cbn [_position_data landmarks].
  rewrite Hlen in *. auto.
Qed.

(** C4 (amended): with all three selectors set to the reconstruction, a
    frame rate that is not zero and at least one camera, [build] returns a
    dataset whose position series is keyed by the camera times (frame number
    over frame rate, in ascending frame order), whose orientation series has
    as many timestamps and values, its timestamps being the [np.linspace]
    grid from the first to the last camera time (which need not be the
    camera times), and whose landmarks are the reconstruction's points, one
    each, in order. *)
Theorem build_all_nvm (b : DatasetBuilder) (m : NvmModel) (fps : Q) :
  let cams := sorted framenumber (cameras m) in
  let camera_times := map (fun c => inject_Z (framenumber c) / fps) cams in
  _nvm_model b = Some m ->
  _nvm_camera_fps b = Some fps ->
  ~ fps == 0 ->
  cameras m <> [] ->
  _orientation_source b = Some "nvm"%string ->
  _position_source b = Some "nvm"%string ->
  _landmark_source b = Some "nvm"%string ->
  exists ds pos ori a z,
    build b = Ok ds
    /\ _position_data ds = Some pos
    /\ _orientation_data ds = Some ori
    /\ timestamps pos = camera_times
    /\ values pos = map position cams
    /\ nth_error camera_times 0 = Some a
    /\ nth_error camera_times (length camera_times - 1) = Some z
    /\ timestamps ori = linspace a z (length camera_times)
    /\ length (timestamps ori) = length (timestamps pos)
    /\ length (values ori) = length (timestamps pos)
    /\ landmarks ds = map landmark_of (points m)
    /\ length (landmarks ds) = length (points m)
    /\ StronglySorted (fun c c' => (framenumber c <= framenumber c')%Z) cams
    /\ Permutation (cameras m) cams.
Proof.
  intros cams camera_times Hm Hfps Hnz Hne Ho Hp Hl.
  unfold build, _can_build, selected_sources, populate.
  rewrite Hm, Hfps, Ho, Hp, Hl.
  cbn [is_None negb andb dict_get String.eqb Ascii.eqb Bool.eqb bind result_Monad
       selector_eqb dict_values map snd forallb].
  cbn [bind Method_Monad]. rewrite landmarks_from_nvm_eq.
  destruct (orientation_from_nvm_ok m fps
              (mkDataset (_position_data Dataset_init) (_orientation_data Dataset_init)
                 (trajectory Dataset_init)
                 (landmarks Dataset_init ++ map landmark_of (points m))) Hnz Hne)
    as (tr1 & new_q & a & z & Hori & Ha & Hz & Hq).
  rewrite Hori.
  match goal with
  | |- context [position_from_nvm _ _ _ ?d] =>
      destruct (position_from_nvm_ok m fps d Hnz Hne) as [tr2 Hpos]
  end.
  rewrite Hpos.
  eexists. eexists. eexists. exists a, z.
  split; [reflexivity|]. cbn [_position_data _orientation_data landmarks timestamps values].
  fold cams. fold camera_times.
  repeat (split; [reflexivity || assumption|]).
  cbn [timestamps values].
  split; [apply linspace_length|].
  split; [rewrite Hq; reflexivity|].
  split; [reflexivity|]. split; [apply length_map|].
  split; [apply sorted_ascending|apply sorted_Permutation].
Qed.

End BuildFromReconstruction.

(** ** Closed instances *)

Lemma build_all_nvm_witness :
  let cams := sorted framenumber (cameras example_model) in
  let camera_times := map (fun c => inject_Z (framenumber c) / default_camera_fps) cams in
  exists ds pos ori a z,
    build (collab := stand_in) example_builder_all_nvm = Ok ds
    /\ _position_data ds = Some pos
    /\ _orientation_data ds = Some ori
    /\ timestamps pos = camera_times
    /\ values pos = map position cams
    /\ nth_error camera_times 0 = Some a
    /\ nth_error camera_times (length camera_times - 1) = Some z
    /\ timestamps ori = linspace a z (length camera_times)
    /\ length (timestamps ori) = length (timestamps pos)
    /\ length (values ori) = length (timestamps pos)
    /\ landmarks ds = map landmark_of (points example_model)
    /\ length (landmarks ds) = length (points example_model)
    /\ StronglySorted (fun c c' => (framenumber c <= framenumber c')%Z) cams
    /\ Permutation (cameras example_model) cams.
Proof.
  apply (build_all_nvm (collab := stand_in) example_builder_all_nvm example_model
           default_camera_fps).
  - reflexivity.
  - reflexivity.
  - intros H. vm_compute in H. discriminate.
  - discriminate.
  - reflexivity.
  - reflexivity.
  - reflexivity.
Defined.


Lemma interpolate_before_first_wraps_around_witness :
  quaternion_array_interpolate (collab := stand_in)
    [mkQuaternion 1 0 0 0; mkQuaternion 0 1 0 0] [1; 2] 0
  = Ok (quaternion_slerp (collab := stand_in)
          (mkQuaternion 0 1 0 0) (mkQuaternion 1 0 0 0) 1).
Proof.
  apply (interpolate_before_first_wraps_around (collab := stand_in)
           [mkQuaternion 1 0 0 0; mkQuaternion 0 1 0 0] [1; 2] 0 1 2
           (mkQuaternion 1 0 0 0) (mkQuaternion 0 1 0 0));
    reflexivity.
Defined.

Lemma nvm_aligned_imu_orientations_spec_witness :
  _nvm_aligned_imu_orientations (collab := binary64_unit) example_builder_tie
  = Ok (quaternion_rows
          (map flip_vector_part
             (hold_initial (mkArray2 3 [[0; 0; 0]; [0; 0; 0]; [0; 0; 0]; [0; 0; 0]])
                (binary64 (binary64 (2 # 10) - binary64 (1 # 10)))
                (Some (conjugate (mkQuaternion 1 0 0 0))))),
        [binary64 (1 # 10); binary64 (2 # 10); binary64 (3 # 10); binary64 (4 # 10)]).
Proof.
  apply (nvm_aligned_imu_orientations_spec (collab := binary64_unit) example_builder_tie
           example_model_tie default_camera_fps
           (mkArray2 3 [[0; 0; 0]; [0; 0; 0]; [0; 0; 0]; [0; 0; 0]])
           [binary64 (1 # 10); binary64 (2 # 10); binary64 (3 # 10); binary64 (4 # 10)]
           (binary64 (1 # 10)) 0 0 (mkCamera 3 (0, 0, 0) (mkQuaternion 1 0 0 0))
           (binary64 (1 # 10)) (binary64 (2 # 10))).
  - reflexivity.
  - reflexivity.
  - intros H. vm_compute in H. discriminate.
  - reflexivity.
  - reflexivity.
  - reflexivity.
  - reflexivity.
  - vm_compute. discriminate.
  - intros i c Hi. lia.
  - exists (binary64 (1 # 10)). split; [reflexivity|].
    intros [|[|[|[|i]]]] x Hx; [| | | |destruct i; discriminate];
      cbn [nth_error] in Hx; injection Hx as <-;
      (split; [vm_compute; discriminate|intros Hlt; lia]).
  - reflexivity.
  - reflexivity.
Defined.

(** * Further properties of the module *)

(** ** Outcomes of the ingestion methods *)

Section IngestionOutcomes.

Context {collab : Collaborators}.

Lemma set_position_then_update (ts : TimeSeries Vec3) (ds : Dataset) :
  exists tr,
    (set_position_data ts ;; _update_trajectory) ds
    = (mkDataset (Some ts) (_orientation_data ds) tr (landmarks ds), Ok tt).
Proof.
  unfold set_position_data. cbn [bind Method_Monad get put].
  destruct (update_trajectory_frame
              (mkDataset (Some ts) (_orientation_data ds) (trajectory ds) (landmarks ds)))
    as [tr Htr].
  exists tr. rewrite Htr. reflexivity.
Qed.

Lemma set_orientation_then_update (ts : TimeSeries Quaternion) (ds : Dataset) :
  exists tr,
    (set_orientation_data ts ;; _update_trajectory) ds
    = (mkDataset (_position_data ds) (Some ts) tr (landmarks ds), Ok tt).
Proof.
  unfold set_orientation_data. cbn [bind Method_Monad get put].
  destruct (update_trajectory_frame
              (mkDataset (_position_data ds) (Some ts) (trajectory ds) (landmarks ds)))
    as [tr Htr].
  exists tr. rewrite Htr. reflexivity.
Qed.

Lemma position_from_nvm_outcome (nvm_model : option NvmModel)
    (f : option (Z -> Q)) (fps : option Q) (ds : Dataset) :
  (exists e, position_from_nvm nvm_model f fps ds = (ds, Raise e))
  \/ (exists ts tr,
        position_from_nvm nvm_model f fps ds
        = (mkDataset (Some ts) (_orientation_data ds) tr (landmarks ds), Ok tt)).
Proof.
  unfold position_from_nvm.
  destruct (Bool.eqb (is_None nvm_model) (is_None f)); [left; eexists; reflexivity|].
  destruct nvm_model as [m|]; [|left; eexists; reflexivity].
  cbn [attr lift bind Method_Monad].
  destruct (mapM _ (sorted framenumber (cameras m))) as [times|e];
    [|left; eexists; reflexivity].
  destruct (vstack_T _) as [pos|e]; [|left; eexists; reflexivity].
  right. destruct (set_position_then_update (mkTimeSeries times pos) ds) as [tr Htr].
  exists (mkTimeSeries times pos), tr. exact Htr.
Qed.

Lemma orientation_from_nvm_outcome (nvm_model : option NvmModel)
    (f : option (Z -> Q)) (fps : option Q) (ds : Dataset) :
  (exists e, orientation_from_nvm nvm_model f fps ds = (ds, Raise e))
  \/ (exists ts tr,
        orientation_from_nvm nvm_model f fps ds
        = (mkDataset (_position_data ds) (Some ts) tr (landmarks ds), Ok tt)).
Proof.
  unfold orientation_from_nvm.
  destruct (Bool.eqb (is_None nvm_model) (is_None f)); [left; eexists; reflexivity|].
  destruct nvm_model as [m|]; [|left; eexists; reflexivity].
  cbn [attr lift bind Method_Monad].
  destruct (mapM _ (sorted framenumber (cameras m))) as [times|e];
    [|left; eexists; reflexivity].
  destruct (resample_quaternion_array _ times None) as [r|e];
    [|left; eexists; reflexivity].
  right.
  destruct (set_orientation_then_update (mkTimeSeries (snd r) (fst r)) ds) as [tr Htr].
  exists (mkTimeSeries (snd r) (fst r)), tr. exact Htr.
Qed.

Lemma orientation_from_gyro_outcome (gyro_data : Array2) (gyro_times : list Q)
    (ds : Dataset) :
  (exists e, orientation_from_gyro gyro_data gyro_times ds = (ds, Raise e))
  \/ (exists qs tr,
        orientation_from_gyro gyro_data gyro_times ds
        = (mkDataset (_position_data ds) (Some (mkTimeSeries gyro_times qs)) tr
             (landmarks ds), Ok tt)).
Proof.
  unfold orientation_from_gyro, shape.
  destruct (Nat.eqb (ncols gyro_data) 3).
  - cbn [lift bind Method_Monad].
    destruct (py_index gyro_times 1) as [t1|e]; [|left; eexists; reflexivity].
    destruct (py_index gyro_times 0) as [t0|e]; [|left; eexists; reflexivity].
    destruct (negb (allclose (diff gyro_times) (t1 - t0)));
      [left; eexists; reflexivity|].
    right. cbn [ret].
    destruct (set_orientation_then_update
                (mkTimeSeries gyro_times
                   (unflipped (integrate_gyro_quaternion_uniform gyro_data (t1 - t0) None)))
                ds) as [tr Htr].
    eexists. exists tr. exact Htr.
  - destruct (Nat.eqb (ncols gyro_data) 4).
    + right. cbn [bind Method_Monad ret].
      destruct (set_orientation_then_update
                  (mkTimeSeries gyro_times (unflipped (QuaternionArray gyro_data))) ds)
        as [tr Htr].
      eexists. exists tr. exact Htr.
    + left. eexists. reflexivity.
Qed.

(** X1: the ingestion methods of [Dataset] compute and check before they
    assign. Each either raises, out of its own code, and leaves the dataset
    exactly as it was, or returns having replaced its own series (appended
    the landmarks) and the trajectory and nothing else. (The spline fitting
    of the rebuild is a collaborator; it is not modelled as failing.) *)
Theorem ingestion_all_or_nothing (ds : Dataset) :
  (forall nvm_model f fps,
     (exists e, position_from_nvm nvm_model f fps ds = (ds, Raise e))
     \/ (exists ts tr,
           position_from_nvm nvm_model f fps ds
           = (mkDataset (Some ts) (_orientation_data ds) tr (landmarks ds), Ok tt)))
  /\ (forall nvm_model f fps,
        (exists e, orientation_from_nvm nvm_model f fps ds = (ds, Raise e))
        \/ (exists ts tr,
              orientation_from_nvm nvm_model f fps ds
              = (mkDataset (_position_data ds) (Some ts) tr (landmarks ds), Ok tt)))
  /\ (forall gyro_data gyro_times,
        (exists e, orientation_from_gyro gyro_data gyro_times ds = (ds, Raise e))
        \/ (exists qs tr,
              orientation_from_gyro gyro_data gyro_times ds
              = (mkDataset (_position_data ds) (Some (mkTimeSeries gyro_times qs)) tr
                   (landmarks ds), Ok tt)))
  /\ (forall nvm_model,
        landmarks_from_nvm nvm_model ds = (ds, Raise AttributeError)
        \/ (exists m, nvm_model = Some m
              /\ landmarks_from_nvm nvm_model ds
                 = (mkDataset (_position_data ds) (_orientation_data ds) (trajectory ds)
                      (landmarks ds ++ map landmark_of (points m)), Ok tt))).
Proof.
  split; [intros; apply position_from_nvm_outcome|].
  split; [intros; apply orientation_from_nvm_outcome|].
  split; [intros; apply orientation_from_gyro_outcome|].
  intros [m|]; [right|left; reflexivity].
  exists m. split; [reflexivity|apply landmarks_from_nvm_eq].
Qed.

End IngestionOutcomes.

(** ** Registering the sources *)

Lemma diff_entries (l : list Q) : forall d,
  In d (diff l) ->
  exists i x y, nth_error l i = Some x /\ nth_error l (S i) = Some y /\ d = y - x.
Proof.
  induction l as [|x l IH]; intros d Hd; [contradiction|].
  destruct l as [|y l]; [contradiction|].
  change (In d ((y - x) :: diff (y :: l))) in Hd. destruct Hd as [<-|Hd].
  - exists 0%nat, x, y. repeat split.
  - destruct (IH d Hd) as (i & a & b & Ha & Hb & ->).
    exists (S i), a, b. repeat split; assumption.
Qed.

(** Exactly uniform timestamps pass the tolerance check. *)
Lemma uniformly_spaced_allclose (t0 t1 : Q) (rest : list Q) :
  uniformly_spaced (t0 :: t1 :: rest) ->
  allclose (diff (t0 :: t1 :: rest)) (t1 - t0) = true.
Proof.
  intros [h Hh]. unfold allclose. apply forallb_forall. intros d Hd.
  destruct (diff_entries _ d Hd) as (i & x & y & Hx & Hy & ->).
  apply isclose_Qeq.
  rewrite (Hh i x y Hx Hy), (Hh 0%nat t0 t1 eq_refl eq_refl). reflexivity.
Qed.

Section Sources.

Context {collab : Collaborators}.

(** X2: a builder takes one reconstruction. On a builder without one,
    [add_source_nvm] stores the model and the frame rate and changes nothing
    else; on the builder it leaves, every further [add_source_nvm] raises a
    [DatasetError] and keeps the first model. *)
Theorem add_source_nvm_once (b : DatasetBuilder) (nvm nvm' : NvmModel)
    (camera_fps camera_fps' : Q) :
  _nvm_model b = None ->
  let b1 := mkDatasetBuilder (Some nvm) (Some camera_fps) (_gyro_data b)
              (_gyro_times b) (_gyro_quat b) (_orientation_source b)
              (_position_source b) (_landmark_source b) in
  add_source_nvm nvm camera_fps b = (b1, Ok tt)
  /\ add_source_nvm nvm' camera_fps' b1
     = (b1, Raise (DatasetError "Can only add one NVM source")).
Proof.
  intros Hb. unfold add_source_nvm. cbn [bind Method_Monad get]. rewrite Hb.
  split; reflexivity.
Qed.

(** X3: [add_source_gyro] checks the shape before it writes anything. A row
    count different from the number of timestamps is refused first, then a
    width other than 3 (so also 4-wide quaternion data); both leave the
    builder unchanged, whether or not it already has a gyro source. *)
Theorem add_source_gyro_shape_checks (b : DatasetBuilder) (gyro_data : Array2)
    (gyro_times : list Q) :
  (length (rows gyro_data) <> length gyro_times ->
   add_source_gyro gyro_data gyro_times b
   = (b, Raise (DatasetError "Gyro data and timestamps length did not match")))
  /\ (length (rows gyro_data) = length gyro_times ->
      ncols gyro_data <> 3%nat ->
      add_source_gyro gyro_data gyro_times b
      = (b, Raise (DatasetError "Gyro data must have shape Nx3"))).
Proof.
  unfold add_source_gyro, shape. split.
  - intros Hn. apply Nat.eqb_neq in Hn. rewrite Hn. reflexivity.
  - intros Hn Hd. apply Nat.eqb_eq in Hn. apply Nat.eqb_neq in Hd.
    rewrite Hn, Hd. reflexivity.
Qed.

(** X4: on a builder without a gyro source, 3-wide data with as many rows
    as timestamps, at least two of them and exactly uniformly spaced, is
    accepted: the data and the timestamps are stored, the stream is
    integrated at once at the interval of the first two timestamps and the
    result cached; a further well-shaped [add_source_gyro] is then refused. *)
Theorem add_source_gyro_uniform (b : DatasetBuilder) (gyro_data : Array2)
    (t0 t1 : Q) (rest : list Q) :
  let gyro_times := t0 :: t1 :: rest in
  let b1 := mkDatasetBuilder (_nvm_model b) (_nvm_camera_fps b) (Some gyro_data)
              (Some gyro_times)
              (Some (integrate_gyro_quaternion_uniform gyro_data (t1 - t0) None))
              (_orientation_source b) (_position_source b) (_landmark_source b) in
  _gyro_data b = None ->
  shape gyro_data = (length gyro_times, 3%nat) ->
  uniformly_spaced gyro_times ->
  add_source_gyro gyro_data gyro_times b = (b1, Ok tt)
  /\ forall (d : Array2) (t : list Q),
       shape d = (length t, 3%nat) ->
       add_source_gyro d t b1
       = (b1, Raise (DatasetError "Can not add multiple gyro sources")).
Proof.
  intros gyro_times b1 Hb Hs Hu. subst gyro_times b1. split.
  - rewrite add_source_gyro_fresh by assumption.
    rewrite py_index_1, py_index_0. cbv zeta.
    rewrite uniformly_spaced_allclose by assumption. reflexivity.
  - intros d t Hd. unfold add_source_gyro. rewrite Hd, Nat.eqb_refl. reflexivity.
Qed.

(** X5: [build] with any of the three selectors unset raises the
    [DatasetError] for an incomplete selection, whatever sources the
    builder holds. *)
Theorem build_incomplete_selection (b : DatasetBuilder) :
  _orientation_source b = None \/ _position_source b = None
  \/ _landmark_source b = None ->
  build b = Raise (DatasetError "Must select all sources").
Proof.
  intros H. unfold build, _can_build.
  destruct (_landmark_source b), (_orientation_source b), (_position_source b);
    try reflexivity.
  destruct H as [H|[H|H]]; discriminate.
Qed.

End Sources.

Lemma add_source_nvm_once_witness :
  let b1 := mkDatasetBuilder (Some example_model) (Some default_camera_fps) None None
              None None None None in
  add_source_nvm example_model default_camera_fps DatasetBuilder_init = (b1, Ok tt)
  /\ add_source_nvm (mkNvmModel [] []) 25 b1
     = (b1, Raise (DatasetError "Can only add one NVM source")).
Proof.
  apply (add_source_nvm_once DatasetBuilder_init example_model (mkNvmModel [] [])
           default_camera_fps 25).
  reflexivity.
Defined.

Lemma add_source_gyro_shape_checks_witness :
  add_source_gyro (collab := stand_in) example_gyro_data [0; 1] DatasetBuilder_init
  = (DatasetBuilder_init,
     Raise (DatasetError "Gyro data and timestamps length did not match"))
  /\ add_source_gyro (collab := stand_in) (mkArray2 4 [[1; 0; 0; 0]; [1; 0; 0; 0]])
       [0; 1] DatasetBuilder_init
     = (DatasetBuilder_init, Raise (DatasetError "Gyro data must have shape Nx3")).
Proof.
  split.
  - apply (proj1 (add_source_gyro_shape_checks (collab := stand_in) DatasetBuilder_init
                    example_gyro_data [0; 1])).
    simpl. lia.
  - apply (proj2 (add_source_gyro_shape_checks (collab := stand_in) DatasetBuilder_init
                    (mkArray2 4 [[1; 0; 0; 0]; [1; 0; 0; 0]]) [0; 1])).
    + reflexivity.
    + simpl. lia.
Defined.

Lemma example_times_uniform : uniformly_spaced [0; 1 # 100; 2 # 100].
Proof.
  exists (1 # 100).
  intros [|[|i]] x y Hx Hy; simpl in Hx, Hy.
  - injection Hx as <-. injection Hy as <-. reflexivity.
  - injection Hx as <-. injection Hy as <-. reflexivity.
  - destruct i; discriminate.
Qed.

Lemma add_source_gyro_uniform_witness :
  let gyro_data := mkArray2 3 [[0; 0; 0]; [0; 0; 0]; [0; 0; 0]] in
  let gyro_times := [0; 1 # 100; 2 # 100] in
  let b1 := mkDatasetBuilder None None (Some gyro_data) (Some gyro_times)
              (Some (hold_initial gyro_data ((1 # 100) - 0) None)) None None None in
  add_source_gyro (collab := stand_in) gyro_data gyro_times DatasetBuilder_init
  = (b1, Ok tt)
  /\ forall (d : Array2) (t : list Q),
       shape d = (length t, 3%nat) ->
       add_source_gyro (collab := stand_in) d t b1
       = (b1, Raise (DatasetError "Can not add multiple gyro sources")).
Proof.
  apply (add_source_gyro_uniform (collab := stand_in) DatasetBuilder_init
           (mkArray2 3 [[0; 0; 0]; [0; 0; 0]; [0; 0; 0]]) 0 (1 # 100) [2 # 100]).
  - reflexivity.
  - reflexivity.
  - exact example_times_uniform.
Defined.

Lemma build_incomplete_selection_witness :
  build (collab := stand_in)
    (mkDatasetBuilder (Some example_model) (Some default_camera_fps) None None None
       (Some "nvm"%string) None (Some "nvm"%string))
  = Raise (DatasetError "Must select all sources").
Proof.
  apply (build_incomplete_selection (collab := stand_in)).
  right. left. reflexivity.
Defined.

(** ** The trajectory that is rebuilt *)

Lemma truthy_nonempty {V : Type} (ts : TimeSeries V) :
  timestamps ts <> [] -> truthy (Some ts) = true.
Proof. unfold truthy. destruct (timestamps ts); [congruence|reflexivity]. Qed.

(** X6: [_update_trajectory] never raises and picks the variant by the
    series present (not empty): position only, rotation only, or both, with
    rotation smoothing always off; with no series at all it leaves the
    trajectory as it was. *)
Theorem update_trajectory_variants (p : TimeSeries Vec3) (o : TimeSeries Quaternion)
    (tr : option Trajectory) (lms : list Landmark) :
  timestamps p <> [] ->
  timestamps o <> [] ->
  _update_trajectory (mkDataset (Some p) None tr lms)
  = (mkDataset (Some p) None (Some (SplinedPositionTrajectory p)) lms, Ok tt)
  /\ _update_trajectory (mkDataset None (Some o) tr lms)
     = (mkDataset None (Some o) (Some (SplinedRotationTrajectory o false)) lms, Ok tt)
  /\ _update_trajectory (mkDataset (Some p) (Some o) tr lms)
     = (mkDataset (Some p) (Some o) (Some (SplinedTrajectory p o false)) lms, Ok tt)
  /\ _update_trajectory (mkDataset None None tr lms)
     = (mkDataset None None tr lms, Ok tt).
Proof.
  intros Hp Ho. unfold _update_trajectory.
  cbn [bind Method_Monad get _position_data _orientation_data landmarks].
  rewrite (truthy_nonempty p Hp), (truthy_nonempty o Ho).
  repeat split; reflexivity.
Qed.

Lemma update_trajectory_variants_witness :
  let p := mkTimeSeries [0; 1] [(0, 0, 0); (1, 0, 0)] in
  let o := mkTimeSeries [0; 1] [mkQuaternion 1 0 0 0; mkQuaternion 0 1 0 0] in
  _update_trajectory (mkDataset (Some p) None None [])
  = (mkDataset (Some p) None (Some (SplinedPositionTrajectory p)) [], Ok tt)
  /\ _update_trajectory (mkDataset None (Some o) None [])
     = (mkDataset None (Some o) (Some (SplinedRotationTrajectory o false)) [], Ok tt)
  /\ _update_trajectory (mkDataset (Some p) (Some o) None [])
     = (mkDataset (Some p) (Some o) (Some (SplinedTrajectory p o false)) [], Ok tt)
  /\ _update_trajectory (mkDataset None None None [])
     = (mkDataset None None None [], Ok tt).
Proof.
  apply (update_trajectory_variants (mkTimeSeries [0; 1] [(0, 0, 0); (1, 0, 0)])
           (mkTimeSeries [0; 1] [mkQuaternion 1 0 0 0; mkQuaternion 0 1 0 0]) None []);
    discriminate.
Defined.

(** ** Building with a gyro orientation or an [imu] position selector *)

Section BuildOtherSelections.

Context {collab : Collaborators}.

Lemma position_from_nvm_eq (m : NvmModel) (fps : Q) (ds : Dataset) :
  ~ fps == 0 -> cameras m <> [] ->
  position_from_nvm (Some m) None (Some fps) ds
  = _update_trajectory
      (mkDataset
         (Some (mkTimeSeries
                  (map (fun c => inject_Z (framenumber c) / fps)
                     (sorted framenumber (cameras m)))
                  (map position (sorted framenumber (cameras m)))))
         (_orientation_data ds) (trajectory ds) (landmarks ds)).
Proof.
  intros Hnz Hne. unfold position_from_nvm.
  cbn [is_None Bool.eqb attr lift bind Method_Monad].
  change (fun c : Camera => frame_time None (Some fps) (framenumber c))
    with (fun c : Camera => divide (framenumber c) (Some fps)).
  rewrite camera_times_nonzero by assumption.
  assert (Hv : vstack_T (map position (sorted framenumber (cameras m)))
               = Ok (map position (sorted framenumber (cameras m)))).
  { destruct (sorted framenumber (cameras m)) as [|c cs] eqn:E; [|reflexivity].
    apply sorted_nil_inv in E. contradiction. }
  rewrite Hv. reflexivity.
Qed.




Lemma orientation_from_gyro_4wide (gyro_data : Array2) (gyro_times : list Q)
    (ds : Dataset) :
  ncols gyro_data = 4%nat ->
  orientation_from_gyro gyro_data gyro_times ds
  = _update_trajectory
      (mkDataset (_position_data ds)
         (Some (mkTimeSeries gyro_times (unflipped (QuaternionArray gyro_data))))
         (trajectory ds) (landmarks ds)).
Proof.
  intros Hd. unfold orientation_from_gyro, shape. rewrite Hd. reflexivity.
Qed.

Lemma sorted_not_nil {A : Type} (key : A -> Z) (l : list A) :
  l <> [] -> sorted key l <> [].
Proof. intros H E. apply sorted_nil_inv in E. contradiction. Qed.

(** X7: with the orientation selector [nvm] and the position selector
    [imu], [build] ingests no orientation at all: the dataset has the
    reconstruction's landmarks and camera positions, no orientation series,
    and a position-only trajectory. *)
Theorem build_position_imu_has_no_orientation (b : DatasetBuilder) (m : NvmModel)
    (fps : Q) :
  let cams := sorted framenumber (cameras m) in
  let pos := mkTimeSeries (map (fun c => inject_Z (framenumber c) / fps) cams)
               (map position cams) in
  _nvm_model b = Some m ->
  _nvm_camera_fps b = Some fps ->
  ~ fps == 0 ->
  cameras m <> [] ->
  _orientation_source b = Some "nvm"%string ->
  _position_source b = Some "imu"%string ->
  _landmark_source b = Some "nvm"%string ->
  build b
  = Ok (mkDataset (Some pos) None (Some (SplinedPositionTrajectory pos))
          (map landmark_of (points m))).
Proof.
  intros cams pos Hm Hfps Hnz Hne Ho Hp Hl.
  unfold build, _can_build, selected_sources, populate.
  rewrite Hm, Hfps, Ho, Hp, Hl.
  cbn [is_None negb andb dict_get String.eqb Ascii.eqb Bool.eqb bind result_Monad
       selector_eqb dict_values map snd forallb lift].
  cbn [bind Method_Monad ret]. rewrite landmarks_from_nvm_eq.
  cbn [lift selector_eqb String.eqb Ascii.eqb Bool.eqb].
  rewrite position_from_nvm_eq by assumption.
  cbn [_position_data _orientation_data trajectory landmarks Dataset_init app].
  fold cams. fold pos.
  assert (Hpos : timestamps pos <> []).
  { unfold pos. cbn [timestamps]. intros E. apply map_eq_nil in E.
    now apply (sorted_not_nil framenumber (cameras m) Hne). }
  unfold _update_trajectory.
  cbn [bind Method_Monad get _position_data _orientation_data landmarks].
  rewrite (truthy_nonempty pos Hpos). reflexivity.
Qed.


End BuildOtherSelections.

Lemma build_position_imu_has_no_orientation_witness :
  let cams := sorted framenumber (cameras example_model) in
  let pos := mkTimeSeries
               (map (fun c => inject_Z (framenumber c) / default_camera_fps) cams)
               (map position cams) in
  build (collab := stand_in)
    (mkDatasetBuilder (Some example_model) (Some default_camera_fps) None None None
       (Some "nvm"%string) (Some "imu"%string) (Some "nvm"%string))
  = Ok (mkDataset (Some pos) None (Some (SplinedPositionTrajectory pos))
          (map landmark_of (points example_model))).
Proof.
  apply (build_position_imu_has_no_orientation (collab := stand_in)
           (mkDatasetBuilder (Some example_model) (Some default_camera_fps) None None
              None (Some "nvm"%string) (Some "imu"%string) (Some "nvm"%string))
           example_model default_camera_fps).
  - reflexivity.
  - reflexivity.
  - intros H. vm_compute in H. discriminate.
  - discriminate.
  - reflexivity.
  - reflexivity.
  - reflexivity.
Defined.


(** ** Orientation from a gyro array *)

Section OrientationFromGyro.

Context {collab : Collaborators}.

(** X9: [orientation_from_gyro] on 3-wide data with at least two
    timestamps. When the consecutive differences all match the first one
    within numpy's tolerance the stream is integrated at that interval and
    stored, sign-corrected, at the given timestamps; otherwise the call
    raises a [DatasetError] and the dataset is unchanged. The number of rows
    is not compared with the number of timestamps. *)
Theorem orientation_from_gyro_rates (gyro_data : Array2) (t0 t1 : Q)
    (rest : list Q) (ds : Dataset) :
  let gyro_times := t0 :: t1 :: rest in
  ncols gyro_data = 3%nat ->
  (allclose (diff gyro_times) (t1 - t0) = true ->
   orientation_from_gyro gyro_data gyro_times ds
   = _update_trajectory
       (mkDataset (_position_data ds)
          (Some (mkTimeSeries gyro_times
                   (unflipped
                      (integrate_gyro_quaternion_uniform gyro_data (t1 - t0) None))))
          (trajectory ds) (landmarks ds)))
  /\ (allclose (diff gyro_times) (t1 - t0) = false ->
      orientation_from_gyro gyro_data gyro_times ds
      = (ds, Raise (DatasetError "gyro timestamps must be uniformly sampled"))).
Proof.
  intros gyro_times Hd. subst gyro_times.
  unfold orientation_from_gyro, shape. rewrite Hd.
  cbn [Nat.eqb bind Method_Monad lift]. rewrite py_index_1, py_index_0.
  split; intros Hc; rewrite Hc; reflexivity.
Qed.

(** X10: 4-wide data is taken as quaternion components as it is, with no
    check of the timestamps at all; any width other than 3 and 4 raises a
    [DatasetError] naming the shape and leaves the dataset unchanged. *)
Theorem orientation_from_gyro_widths (gyro_data : Array2) (gyro_times : list Q)
    (ds : Dataset) :
  (ncols gyro_data = 4%nat ->
   orientation_from_gyro gyro_data gyro_times ds
   = _update_trajectory
       (mkDataset (_position_data ds)
          (Some (mkTimeSeries gyro_times (unflipped (QuaternionArray gyro_data))))
          (trajectory ds) (landmarks ds)))
  /\ (ncols gyro_data <> 3%nat -> ncols gyro_data <> 4%nat ->
      orientation_from_gyro gyro_data gyro_times ds
      = (ds, Raise (DatasetError
                      ("Gyro data must have shape (N,3) or (N, 4), was ("
                         ++ show_nat (length (rows gyro_data)) ++ ", "
                         ++ show_nat (ncols gyro_data) ++ ")")))).
Proof.
  unfold orientation_from_gyro, shape. split.
  - intros Hd. rewrite Hd. reflexivity.
  - intros H3 H4. apply Nat.eqb_neq in H3. apply Nat.eqb_neq in H4.
    rewrite H3, H4. reflexivity.
Qed.

End OrientationFromGyro.

Lemma orientation_from_gyro_rates_witness :
  orientation_from_gyro (collab := stand_in)
    (mkArray2 3 [[0; 0; 0]; [0; 0; 0]; [0; 0; 0]]) [0; 1 # 100; 3 # 100] Dataset_init
  = (Dataset_init, Raise (DatasetError "gyro timestamps must be uniformly sampled"))
  /\ orientation_from_gyro (collab := stand_in)
       (mkArray2 3 [[0; 0; 0]; [0; 0; 0]; [0; 0; 0]]) [0; 1 # 100; 2 # 100] Dataset_init
     = _update_trajectory
         (mkDataset None
            (Some (mkTimeSeries [0; 1 # 100; 2 # 100]
                     (hold_initial (mkArray2 3 [[0; 0; 0]; [0; 0; 0]; [0; 0; 0]])
                        ((1 # 100) - 0) None)))
            None []).
Proof.
  split.
  - apply (proj2 (orientation_from_gyro_rates (collab := stand_in)
                    (mkArray2 3 [[0; 0; 0]; [0; 0; 0]; [0; 0; 0]]) 0 (1 # 100)
                    [3 # 100] Dataset_init eq_refl)).
    reflexivity.
  - apply (proj1 (orientation_from_gyro_rates (collab := stand_in)
                    (mkArray2 3 [[0; 0; 0]; [0; 0; 0]; [0; 0; 0]]) 0 (1 # 100)
                    [2 # 100] Dataset_init eq_refl)).
    reflexivity.
Defined.

Lemma orientation_from_gyro_widths_witness :
  orientation_from_gyro (collab := stand_in) (mkArray2 5 [[0; 0; 0; 0; 0]; [0; 0; 0; 0; 0]])
    [0; 1] Dataset_init
  = (Dataset_init,
     Raise (DatasetError "Gyro data must have shape (N,3) or (N, 4), was (2, 5)"))
  /\ orientation_from_gyro (collab := stand_in) (mkArray2 4 [[1; 0; 0; 0]]) [0; 1; 5]
       Dataset_init
     = _update_trajectory
         (mkDataset None (Some (mkTimeSeries [0; 1; 5] [mkQuaternion 1 0 0 0])) None []).
Proof.
  split.
  - apply (proj2 (orientation_from_gyro_widths (collab := stand_in)
                    (mkArray2 5 [[0; 0; 0; 0; 0]; [0; 0; 0; 0; 0]]) [0; 1] Dataset_init)).
    + simpl. lia.
    + simpl. lia.
  - apply (proj1 (orientation_from_gyro_widths (collab := stand_in)
                    (mkArray2 4 [[1; 0; 0; 0]]) [0; 1; 5] Dataset_init)).
    reflexivity.
Defined.

(** ** Resampling to a chosen count, and interpolation inside the range *)

Section ResampleAndInterpolate.

Context {collab : Collaborators}.

(** X11: on a series that is not empty (one quaternion per timestamp,
    increasing or not), [resample_quaternion_array] never raises: for the
    default count and for any [resize] it returns exactly that many
    timestamps, the [linspace] grid between the first and the last
    timestamp, and as many quaternions. On an empty series it raises
    [IndexError]. *)
Theorem resample_returns_target_count (qa : list Quaternion) (ts : list Q)
    (resize : option nat) (a b : Q) :
  let n := match resize with Some r => r | None => length qa end in
  resample_quaternion_array qa [] resize = Raise IndexError
  /\ (length qa = length ts ->
      nth_error ts 0 = Some a ->
      nth_error ts (length ts - 1) = Some b ->
      exists new_q,
        resample_quaternion_array qa ts resize = Ok (new_q, linspace a b n)
        /\ length new_q = n
        /\ length (linspace a b n) = n).
Proof.
  intros n. split; [reflexivity|].
  intros Hlen Ha Hb. unfold resample_quaternion_array. fold n.
  rewrite (py_index_first ts a Ha). cbn [bind result_Monad].
  rewrite (py_index_neg1 ts b Hb). cbn [bind result_Monad].
  destruct (mapM_total (resample_at qa ts) (linspace a b n))
    as (new_q & Hq & Hl & _).
  { intros t Ht. apply (resample_at_total qa ts t a b Hlen Ha Hb).
    now apply linspace_bounded in Ht. }
  exists new_q. rewrite Hq. cbn [bind result_Monad].
  rewrite Hl, linspace_length. auto.
Qed.

(** X12: [quaternion_array_interpolate] at a time that no timestamp
    exceeds, so at or after the last one of an increasing series and at any
    time on an empty series, raises [IndexError]. *)
Theorem interpolate_no_later_sample (qa : list Quaternion) (qtimes : list Q) (t : Q) :
  (forall x, In x qtimes -> x <= t) ->
  quaternion_array_interpolate qa qtimes t = Raise IndexError.
Proof. apply interpolate_at_or_after_last. Qed.

(** X13: between two consecutive timestamps of a strictly increasing
    series, the first included, [quaternion_array_interpolate] returns the
    slerp of the two samples at the time ratio; the ratio lies in [0, 1), so
    the clamp leaves its value as it is, and it is 0 at the earlier sample. *)
Theorem interpolate_inside_ratio (qa : list Quaternion) (qtimes : list Q) (t : Q)
    (k : nat) (t0 t1 : Q) (q0 q1 : Quaternion) :
  strictly_increasing qtimes ->
  nth_error qtimes k = Some t0 -> nth_error qtimes (S k) = Some t1 ->
  nth_error qa k = Some q0 -> nth_error qa (S k) = Some q1 ->
  t0 <= t -> t < t1 ->
  exists tau,
    quaternion_array_interpolate qa qtimes t = Ok (quaternion_slerp q0 q1 tau)
    /\ tau == (t - t0) / (t1 - t0)
    /\ 0 <= tau /\ tau < 1
    /\ (t == t0 -> tau == 0).
Proof.
  intros Hinc Ht0 Ht1 Hq0 Hq1 Hle Hlt.
  exists (clip ((t - t0) / (t1 - t0)) 0 1).
  split; [apply (interpolate_inside qa qtimes t k t0 t1 q0 q1); assumption|].
  set (x := (t - t0) / (t1 - t0)).
  assert (Hx : x * (t1 - t0) == t - t0) by (unfold x; field; lra).
  assert (Hx0 : 0 <= x) by nra.
  assert (Hx1 : x < 1) by nra.
  assert (Hc : clip x 0 1 == x).
  { unfold clip. destruct (Qle_bool x 0) eqn:E0.
    - apply Qle_bool_iff in E0. lra.
    - destruct (Qle_bool 1 x) eqn:E1; [|reflexivity].
      apply Qle_bool_iff in E1. lra. }
  rewrite Hc. repeat split; try assumption; try reflexivity.
  intros Heq. nra.
Qed.

End ResampleAndInterpolate.

Lemma resample_returns_target_count_witness :
  resample_quaternion_array (collab := stand_in) example_quaternions [] (Some 5%nat)
  = Raise IndexError
  /\ exists new_q,
       resample_quaternion_array (collab := stand_in) example_quaternions [0; 1; 3]
         (Some 5%nat)
       = Ok (new_q, linspace 0 3 5)
       /\ length new_q = 5%nat
       /\ length (linspace 0 3 5) = 5%nat.
Proof.
  destruct (resample_returns_target_count (collab := stand_in) example_quaternions
              [0; 1; 3] (Some 5%nat) 0 3) as [H1 H2].
  split; [reflexivity|]. apply H2; reflexivity.
Defined.

Lemma interpolate_no_later_sample_witness :
  quaternion_array_interpolate (collab := stand_in) example_quaternions [0; 1; 3] 3
  = Raise IndexError.
Proof.
  apply (interpolate_no_later_sample (collab := stand_in) example_quaternions [0; 1; 3] 3).
  intros x [<-|[<-|[<-|[]]]]; vm_compute; discriminate.
Defined.

Lemma interpolate_inside_ratio_witness :
  exists tau,
    quaternion_array_interpolate (collab := stand_in) example_quaternions [0; 1; 3] 2
    = Ok (quaternion_slerp (collab := stand_in)
            (mkQuaternion 0 1 0 0) (mkQuaternion 0 0 1 0) tau)
    /\ tau == (2 - 1) / (3 - 1)
    /\ 0 <= tau /\ tau < 1
    /\ (2 == 1 -> tau == 0).
Proof.
  apply (interpolate_inside_ratio (collab := stand_in) example_quaternions [0; 1; 3] 2
           1 1 3 (mkQuaternion 0 1 0 0) (mkQuaternion 0 0 1 0)).
  - apply strictly_increasingb_sound. reflexivity.
  - reflexivity.
  - reflexivity.
  - reflexivity.
  - reflexivity.
  - vm_compute. discriminate.
  - reflexivity.
Defined.

(** ** Which exceptions [build] raises *)

Lemma py_index_raises {A : Type} (l : list A) (i : Z) (e : exn) :
  py_index l i = Raise e -> e = IndexError.
Proof.
  unfold py_index.
  destruct ((0 <=? (if (i <? 0)%Z then (i + Z.of_nat (length l))%Z else i))%Z
            && ((if (i <? 0)%Z then (i + Z.of_nat (length l))%Z else i)
                <? Z.of_nat (length l))%Z).
  - destruct (nth_error l _); [discriminate|congruence].
  - congruence.
Qed.

Lemma mapM_raises {A B : Type} (f : A -> result B) (l : list A) (e : exn) :
  mapM f l = Raise e -> exists a, In a l /\ f a = Raise e.
Proof.
  induction l as [|a l IH]; [discriminate|]. cbn [mapM bind result_Monad].
  destruct (f a) as [b|e'] eqn:Ea.
  - destruct (mapM f l) as [bs|e'']; [discriminate|].
    intros H. injection H as ->. destruct (IH eq_refl) as (a' & Hin & Ha').
    exists a'. split; [now right|exact Ha'].
  - intros H. injection H as ->. exists a. split; [now left|exact Ea].
Qed.

Lemma divide_raises (n : Z) (fps : option Q) (e : exn) :
  divide n fps = Raise e -> e = TypeError \/ e = ZeroDivisionError.
Proof.
  unfold divide. destruct fps as [r|]; [|intros H; left; congruence].
  destruct (Qeq_bool r 0); [intros H; right; congruence|discriminate].
Qed.

Lemma camera_times_raises (cams : list Camera) (fps : option Q) (e : exn) :
  mapM (fun c => divide (framenumber c) fps) cams = Raise e ->
  e = TypeError \/ e = ZeroDivisionError.
Proof.
  intros H. apply mapM_raises in H. destruct H as (c & _ & Hc).
  now apply divide_raises in Hc.
Qed.

Section BuildFailures.

Context {collab : Collaborators}.

Lemma resample_at_raises (qa : list Quaternion) (ts : list Q) (t : Q) (e : exn) :
  resample_at qa ts t = Raise e -> e = IndexError.
Proof.
  unfold resample_at.
  destruct (py_index (flatnonzero _) 0) as [i|e0] eqn:Ei;
    [|intros H; injection H as <-; now apply py_index_raises in Ei].
  cbn [bind result_Monad].
  destruct (py_index ts i) as [t1|e1] eqn:E1;
    [|intros H; injection H as <-; now apply py_index_raises in E1].
  cbn [bind result_Monad]. destruct (isclose t1 t); [apply py_index_raises|].
  destruct (py_index ts (i - 1)) as [t0|e2] eqn:E2;
    [|intros H; injection H as <-; now apply py_index_raises in E2].
  cbn [bind result_Monad].
  destruct (py_index qa (i - 1)) as [q0|e3] eqn:E3;
    [|intros H; injection H as <-; now apply py_index_raises in E3].
  cbn [bind result_Monad].
  destruct (py_index qa i) as [q1|e4] eqn:E4;
    [|intros H; injection H as <-; now apply py_index_raises in E4].
  discriminate.
Qed.

Lemma resample_raises (qa : list Quaternion) (ts : list Q) (resize : option nat)
    (e : exn) :
  resample_quaternion_array qa ts resize = Raise e -> e = IndexError.
Proof.
  unfold resample_quaternion_array.
  destruct (py_index ts 0) as [a|e0] eqn:Ea;
    [|intros H; injection H as <-; now apply py_index_raises in Ea].
  cbn [bind result_Monad].
  destruct (py_index ts (-1)) as [b|e1] eqn:Eb;
    [|intros H; injection H as <-; now apply py_index_raises in Eb].
  cbn [bind result_Monad].
  destruct (mapM _ _) as [qs|e2] eqn:Em; [discriminate|].
  intros H. injection H as <-. apply mapM_raises in Em.
  destruct Em as (t & _ & Ht). now apply resample_at_raises in Ht.
Qed.

Lemma position_from_nvm_raises (m : NvmModel) (fps : option Q) (ds ds' : Dataset)
    (e : exn) :
  position_from_nvm (Some m) None fps ds = (ds', Raise e) -> builtin_error e.
Proof.
  unfold position_from_nvm. cbn [is_None Bool.eqb attr lift bind Method_Monad].
  change (fun c : Camera => frame_time None fps (framenumber c))
    with (fun c : Camera => divide (framenumber c) fps).
  destruct (mapM _ (sorted framenumber (cameras m))) as [times|e0] eqn:Et.
  - destruct (vstack_T _) as [pos|e1] eqn:Ev.
    + destruct (set_position_then_update (mkTimeSeries times pos) ds) as [tr Htr].
      intros H.
      assert (Hx : exists d, (ds', @Raise unit e) = (d, Ok tt))
        by (eexists; rewrite <- H; exact Htr).
      destruct Hx as [d Hx]. discriminate.
    + intros H. injection H as _ <-. unfold vstack_T in Ev.
      destruct (map position _); [|discriminate]. injection Ev as <-.
      unfold builtin_error. tauto.
  - intros H. injection H as _ <-. apply camera_times_raises in Et.
    unfold builtin_error. tauto.
Qed.

Lemma orientation_from_nvm_raises (m : NvmModel) (fps : option Q) (ds ds' : Dataset)
    (e : exn) :
  orientation_from_nvm (Some m) None fps ds = (ds', Raise e) -> builtin_error e.
Proof.
  unfold orientation_from_nvm. cbn [is_None Bool.eqb attr lift bind Method_Monad].
  change (fun c : Camera => frame_time None fps (framenumber c))
    with (fun c : Camera => divide (framenumber c) fps).
  destruct (mapM _ (sorted framenumber (cameras m))) as [times|e0] eqn:Et.
  - destruct (resample_quaternion_array _ times None) as [r|e1] eqn:Er.
    + destruct (set_orientation_then_update (mkTimeSeries (snd r) (fst r)) ds)
        as [tr Htr].
      intros H.
      assert (Hx : exists d, (ds', @Raise unit e) = (d, Ok tt))
        by (eexists; rewrite <- H; exact Htr).
      destruct Hx as [d Hx]. discriminate.
    + intros H. injection H as _ <-. apply resample_raises in Er.
      unfold builtin_error. tauto.
  - intros H. injection H as _ <-. apply camera_times_raises in Et.
    unfold builtin_error. tauto.
Qed.

(** What the alignment step returns is 4 wide, and it raises built-in
    exceptions only. *)
Lemma nvm_aligned_outcome (b : DatasetBuilder) :
  match _nvm_aligned_imu_orientations b with
  | Ok (q, times) =>
      ncols q = 4%nat
      /\ exists gyro_times j,
           _gyro_times b = Some gyro_times /\ times = skipn j gyro_times
           /\ (j < length gyro_times)%nat /\ (2 <= length times)%nat
  | Raise e => builtin_error e
  end.
Proof.
  unfold _nvm_aligned_imu_orientations.
  destruct (_nvm_model b) as [m|]; [|unfold builtin_error; simpl; tauto].
  cbn [attr bind result_Monad].
  destruct (mapM _ (sorted framenumber (cameras m))) as [cam_times|e] eqn:Et;
    [|apply camera_times_fl_raises in Et; unfold builtin_error; simpl; tauto].
  cbn [bind result_Monad].
  destruct (_gyro_times b) as [gyro_times|]; [|unfold builtin_error; simpl; tauto].
  cbn [subscriptable bind result_Monad].
  destruct (py_index gyro_times 0) as [g0|e] eqn:E0;
    [|apply py_index_raises in E0; unfold builtin_error; simpl; tauto].
  cbn [bind result_Monad].
  destruct (py_index (flatnonzero _) 0) as [cam_idx|e] eqn:E1;
    [|apply py_index_raises in E1; unfold builtin_error; simpl; tauto].
  cbn [bind result_Monad].
  destruct (py_index (sorted framenumber (cameras m)) cam_idx) as [cam_ref|e] eqn:E2;
    [|apply py_index_raises in E2; unfold builtin_error; simpl; tauto].
  cbn [bind result_Monad].
  destruct (py_index cam_times cam_idx) as [t_ref|e] eqn:E3;
    [|apply py_index_raises in E3; unfold builtin_error; simpl; tauto].
  cbn [bind result_Monad].
  destruct (_gyro_data b) as [gyro_data|]; [|unfold builtin_error; simpl; tauto].
  cbn [subscriptable bind result_Monad].
  set (j := argmin (map (fun g => Qabs (fl (g - t_ref))) gyro_times)).
  destruct (py_index (py_slice_from gyro_times j) 1) as [t1|e] eqn:E4;
    [|apply py_index_raises in E4; unfold builtin_error; simpl; tauto].
  cbn [bind result_Monad].
  destruct (py_index (py_slice_from gyro_times j) 0) as [t0|e] eqn:E5;
    [|apply py_index_raises in E5; unfold builtin_error; simpl; tauto].
  cbn [bind result_Monad].
  split; [reflexivity|].
  exists gyro_times, (Z.to_nat j). split; [reflexivity|]. split; [reflexivity|].
  assert (Hlen : (2 <= length (py_slice_from gyro_times j))%nat).
  { destruct (le_lt_dec 2 (length (py_slice_from gyro_times j))) as [H|H]; [exact H|].
    rewrite py_index_short in E4 by lia. discriminate. }
  unfold py_slice_from in *. rewrite length_skipn in Hlen.
  split; [lia|]. now rewrite length_skipn.
Qed.

(** X14: [build] raises a [DatasetError] only from its two selector
    checks. Once the three selectors are set and the landmark selector is
    [nvm], every failure (no reconstruction or gyro source added, a zero or
    missing frame rate, no cameras, no camera late enough, too few gyro
    samples) surfaces as a built-in exception. *)
Theorem build_failures (b : DatasetBuilder) (e : exn) :
  build b = Raise e ->
  (e = DatasetError "Must select all sources" /\ _can_build b = false)
  \/ (e = DatasetError "Only landmarks from NVM is supported"
      /\ _can_build b = true /\ _landmark_source b <> Some "nvm"%string)
  \/ (builtin_error e
      /\ _can_build b = true /\ _landmark_source b = Some "nvm"%string).
Proof.
  unfold build. destruct (_can_build b) eqn:Hcan; cbn [negb];
    [|intros H; injection H as <-; left; auto].
  unfold selected_sources.
  cbn [dict_get String.eqb Ascii.eqb Bool.eqb bind result_Monad].
  destruct (selector_eqb (_landmark_source b) "nvm") eqn:Hl; cbn [negb].
  2:{ intros H. injection H as <-. right. left. repeat split.
      intros E. rewrite E in Hl. discriminate. }
  assert (Hlm : _landmark_source b = Some "nvm"%string).
  { destruct (_landmark_source b) as [s|]; [|discriminate].
    cbn [selector_eqb] in Hl. apply String.eqb_eq in Hl. now subst. }
  intros H. right. right. split; [|auto].
  unfold populate in H. cbn [bind Method_Monad] in H.
  destruct (_nvm_model b) as [m|].
  2:{ rewrite landmarks_from_nvm_None in H. injection H as <-.
      unfold builtin_error. tauto. }
  rewrite landmarks_from_nvm_eq in H.
  destruct (forallb _ _).
  - destruct (orientation_from_nvm (Some m) None (_nvm_camera_fps b) _)
      as [ds1 [[]|e1]] eqn:Eo.
    + destruct (position_from_nvm (Some m) None (_nvm_camera_fps b) ds1)
        as [ds2 [[]|e2]] eqn:Ep; [discriminate|].
      injection H as <-. now apply position_from_nvm_raises in Ep.
    + injection H as <-. now apply orientation_from_nvm_raises in Eo.
  - cbn [dict_get String.eqb Ascii.eqb Bool.eqb lift] in H.
    destruct (selector_eqb (_orientation_source b) "imu").
    + pose proof (nvm_aligned_outcome b) as Ha.
      destruct (_nvm_aligned_imu_orientations b) as [[q times]|ea].
      * destruct Ha as [Hq _]. cbn [fst snd] in H.
        rewrite (orientation_from_gyro_4wide q times _ Hq) in H.
        match type of H with
        | context [_update_trajectory ?d] =>
            destruct (update_trajectory_frame d) as [tr Htr]; rewrite Htr in H
        end.
        match type of H with
        | context [position_from_nvm ?a ?f ?r ?d] =>
            destruct (position_from_nvm a f r d) as [ds2 [[]|e2]] eqn:Ep
        end; [discriminate|].
        injection H as <-. now apply position_from_nvm_raises in Ep.
      * injection H as <-. exact Ha.
    + cbn [ret Method_Monad] in H.
      match type of H with
      | context [position_from_nvm ?a ?f ?r ?d] =>
          destruct (position_from_nvm a f r d) as [ds2 [[]|e2]] eqn:Ep
      end; [discriminate|].
      injection H as <-. now apply position_from_nvm_raises in Ep.
Qed.

End BuildFailures.

Lemma build_failures_witness :
  (AttributeError = DatasetError "Must select all sources"
   /\ _can_build (mkDatasetBuilder None None None None None (Some "imu"%string)
                    (Some "nvm"%string) (Some "nvm"%string)) = false)
  \/ (AttributeError = DatasetError "Only landmarks from NVM is supported"
      /\ _can_build (mkDatasetBuilder None None None None None (Some "imu"%string)
                       (Some "nvm"%string) (Some "nvm"%string)) = true
      /\ _landmark_source (mkDatasetBuilder None None None None None (Some "imu"%string)
                             (Some "nvm"%string) (Some "nvm"%string))
         <> Some "nvm"%string)
  \/ (builtin_error AttributeError
      /\ _can_build (mkDatasetBuilder None None None None None (Some "imu"%string)
                       (Some "nvm"%string) (Some "nvm"%string)) = true
      /\ _landmark_source (mkDatasetBuilder None None None None None (Some "imu"%string)
                             (Some "nvm"%string) (Some "nvm"%string))
         = Some "nvm"%string).
Proof.
  apply (build_failures (collab := stand_in)
           (mkDatasetBuilder None None None None None (Some "imu"%string)
              (Some "nvm"%string) (Some "nvm"%string)) AttributeError).
  reflexivity.
Defined.

(** ** What the alignment step can return *)

Section AlignmentResult.

Context {collab : Collaborators}.

(** X15: whatever the builder holds, the alignment step either raises a
    built-in exception (never a [DatasetError]) or returns a 4-wide array
    together with a tail of the stored gyro timestamps that has at least
    two entries. *)
Theorem nvm_aligned_returns_tail (b : DatasetBuilder) :
  match _nvm_aligned_imu_orientations b with
  | Ok (q, times) =>
      ncols q = 4%nat
      /\ exists gyro_times j,
           _gyro_times b = Some gyro_times /\ times = skipn j gyro_times
           /\ (j < length gyro_times)%nat /\ (2 <= length times)%nat
  | Raise e => builtin_error e
  end.
Proof. apply nvm_aligned_outcome. Qed.

End AlignmentResult.

(** ** Camera order and camera times *)

Lemma StronglySorted_map {A B : Type} (R : A -> A -> Prop) (R' : B -> B -> Prop)
    (f : A -> B) (l : list A) :
  (forall x y, R x y -> R' (f x) (f y)) ->
  StronglySorted R l -> StronglySorted R' (map f l).
Proof.
  intros Hf. induction 1 as [|x l Hs IH Hx]; simpl; constructor.
  - exact IH.
  - apply Forall_map. eapply Forall_impl; [|exact Hx]. intros y. apply Hf.
Qed.

Lemma StronglySorted_nth {A : Type} (R : A -> A -> Prop) (l : list A) :
  StronglySorted R l ->
  forall i j x y, (i < j)%nat ->
    nth_error l i = Some x -> nth_error l j = Some y -> R x y.
Proof.
  induction 1 as [|a l Hs IH Ha]; intros i j x y Hij Hx Hy.
  - destruct i; discriminate.
  - destruct j as [|j]; [lia|]. simpl in Hy. destruct i as [|i].
    + simpl in Hx. injection Hx as <-.
      rewrite Forall_forall in Ha. apply Ha. eapply nth_error_In; eassumption.
    + simpl in Hx. apply (IH i j x y); [lia|assumption|assumption].
Qed.

(** With distinct keys the sorted list is strictly ascending. *)
Lemma sorted_strictly_ascending {A : Type} (key : A -> Z) (l : list A) :
  NoDup (map key l) ->
  StronglySorted (fun x y => (key x < key y)%Z) (sorted key l).
Proof.
  intros Hnd.
  assert (Hnd' : NoDup (map key (sorted key l))).
  { eapply Permutation_NoDup; [|exact Hnd].
    apply Permutation_map, sorted_Permutation. }
  pose proof (sorted_ascending key l) as Hs.
  induction Hs as [|x t Hs IH Hx]; [constructor|].
  simpl in Hnd'. inversion Hnd' as [|k ks Hnotin Hnd'']. subst.
  constructor; [now apply IH|].
  rewrite Forall_forall in Hx |- *. intros y Hy.
  pose proof (Hx y Hy) as Hle.
  assert (key x <> key y).
  { intros E. apply Hnotin. rewrite E. now apply in_map. }
  lia.
Qed.

(** A strictly ascending list is determined by its elements. *)
Lemma strictly_ascending_unique {A : Type} (key : A -> Z) (l1 : list A) :
  forall l2 : list A,
  StronglySorted (fun x y => (key x < key y)%Z) l1 ->
  StronglySorted (fun x y => (key x < key y)%Z) l2 ->
  Permutation l1 l2 -> l1 = l2.
Proof.
  induction l1 as [|x t1 IH]; intros l2 H1 H2 Hp.
  - apply Permutation_nil in Hp. now subst.
  - destruct l2 as [|y t2];
      [apply Permutation_sym, Permutation_nil in Hp; discriminate|].
    inversion H1 as [|? ? Hs1 Hx]. inversion H2 as [|? ? Hs2 Hy]. subst.
    rewrite Forall_forall in Hx, Hy.
    assert (Exy : x = y).
    { assert (Hin1 : In x (y :: t2))
        by (eapply Permutation_in; [exact Hp|now left]).
      assert (Hin2 : In y (x :: t1))
        by (eapply Permutation_in; [apply Permutation_sym; exact Hp|now left]).
      destruct Hin1 as [E|Hin1]; [now symmetry|].
      destruct Hin2 as [E|Hin2]; [exact E|].
      pose proof (Hy x Hin1). pose proof (Hx y Hin2). lia. }
    subst y. f_equal. apply IH; [assumption|assumption|].
    eapply Permutation_cons_inv; exact Hp.
Qed.

Lemma sorted_order_independent {A : Type} (key : A -> Z) (l l' : list A) :
  NoDup (map key l) -> Permutation l l' -> sorted key l = sorted key l'.
Proof.
  intros Hnd Hp. apply (strictly_ascending_unique key).
  - now apply sorted_strictly_ascending.
  - apply sorted_strictly_ascending.
    eapply Permutation_NoDup; [apply Permutation_map; exact Hp|exact Hnd].
  - rewrite <- (sorted_Permutation key l), <- (sorted_Permutation key l'). exact Hp.
Qed.

Lemma camera_time_monotone (fps : Q) (x y : Z) :
  0 < fps -> (x <= y)%Z -> inject_Z x / fps <= inject_Z y / fps.
Proof.
  intros Hf Hxy. unfold Qdiv. apply Qmult_le_compat_r.
  - now rewrite <- Zle_Qle.
  - apply Qlt_le_weak, Qinv_lt_0_compat, Hf.
Qed.

Lemma camera_time_strictly_monotone (fps : Q) (x y : Z) :
  0 < fps -> (x < y)%Z -> inject_Z x / fps < inject_Z y / fps.
Proof.
  intros Hf Hxy. unfold Qdiv. apply Qmult_lt_compat_r.
  - apply Qinv_lt_0_compat, Hf.
  - now rewrite <- Zlt_Qlt.
Qed.

Section CameraOrder.

Context {collab : Collaborators}.

(** X16: with frame numbers that are pairwise distinct, the order in which
    the reconstruction lists its cameras does not matter: two models with
    the same cameras in different orders give the same outcome of position
    and of orientation ingestion, for any arguments and any dataset. *)
Theorem ingestion_ignores_camera_order (m m' : NvmModel) (f : option (Z -> Q))
    (fps : option Q) (ds : Dataset) :
  NoDup (map framenumber (cameras m)) ->
  Permutation (cameras m) (cameras m') ->
  position_from_nvm (Some m) f fps ds = position_from_nvm (Some m') f fps ds
  /\ orientation_from_nvm (Some m) f fps ds = orientation_from_nvm (Some m') f fps ds.
Proof.
  intros Hnd Hp. unfold position_from_nvm, orientation_from_nvm.
  cbn [attr lift bind Method_Monad is_None].
  rewrite (sorted_order_independent framenumber (cameras m) (cameras m') Hnd Hp).
  split; reflexivity.
Qed.

(** X17: at a positive frame rate and with at least one camera,
    [position_from_nvm] stores one timestamp and one position per camera,
    the timestamps never decreasing; they increase strictly when the frame
    numbers are pairwise distinct. The orientation series and the landmarks
    are kept. *)
Theorem position_from_nvm_times_ascend (m : NvmModel) (fps : Q) (ds : Dataset) :
  0 < fps ->
  cameras m <> [] ->
  exists pos tr,
    position_from_nvm (Some m) None (Some fps) ds
    = (mkDataset (Some pos) (_orientation_data ds) tr (landmarks ds), Ok tt)
    /\ length (timestamps pos) = length (cameras m)
    /\ length (values pos) = length (cameras m)
    /\ StronglySorted Qle (timestamps pos)
    /\ (NoDup (map framenumber (cameras m)) -> strictly_increasing (timestamps pos)).
Proof.
  intros Hf Hne.
  assert (Hnz : ~ fps == 0) by (intros E; rewrite E in Hf; now apply Qlt_irrefl in Hf).
  destruct (position_from_nvm_ok m fps ds Hnz Hne) as [tr Htr].
  eexists. exists tr. split; [exact Htr|]. cbn [timestamps values].
  rewrite !length_map, sorted_length. repeat split.
  - apply (StronglySorted_map (fun c c' => (framenumber c <= framenumber c')%Z)).
    + intros x y. now apply camera_time_monotone.
    + apply sorted_ascending.
  - intros Hnd. unfold strictly_increasing.
    apply (StronglySorted_nth Qlt).
    apply (StronglySorted_map (fun c c' => (framenumber c < framenumber c')%Z)).
    + intros x y. now apply camera_time_strictly_monotone.
    + now apply sorted_strictly_ascending.
Qed.

(** X18: the failures of [position_from_nvm] called with a model and no
    time function. Without cameras it raises [ValueError] whatever the frame
    rate is; with cameras it raises [ZeroDivisionError] for a zero frame rate
    and [TypeError] for a missing one. The dataset is unchanged each time. *)
Theorem position_from_nvm_failures (m : NvmModel) (ds : Dataset) :
  (cameras m = [] ->
   forall fps, position_from_nvm (Some m) None fps ds = (ds, Raise ValueError))
  /\ (cameras m <> [] ->
      (forall fps, fps == 0 ->
         position_from_nvm (Some m) None (Some fps) ds = (ds, Raise ZeroDivisionError))
      /\ position_from_nvm (Some m) None None ds = (ds, Raise TypeError)).
Proof.
  unfold position_from_nvm. cbn [is_None Bool.eqb attr lift bind Method_Monad].
  split.
  - intros E fps. rewrite E. reflexivity.
  - intros Hne.
    destruct (sorted framenumber (cameras m)) as [|c cams] eqn:E;
      [apply sorted_nil_inv in E; contradiction|].
    split; [|reflexivity].
    intros fps Hz. cbn [mapM frame_time divide].
    apply Qeq_bool_iff in Hz. rewrite Hz. reflexivity.
Qed.

End CameraOrder.

Lemma ingestion_ignores_camera_order_witness :
  let m' := mkNvmModel
              [ mkCamera 0 (0, 0, 0) (mkQuaternion 1 0 0 0);
                mkCamera 30 (1, 0, 0) (mkQuaternion 0 1 0 0);
                mkCamera 90 (3, 0, 0) (mkQuaternion 0 0 1 0) ]
              (points example_model) in
  position_from_nvm (Some example_model) None (Some default_camera_fps) Dataset_init
  = position_from_nvm (Some m') None (Some default_camera_fps) Dataset_init
  /\ orientation_from_nvm (collab := stand_in) (Some example_model) None
       (Some default_camera_fps) Dataset_init
     = orientation_from_nvm (collab := stand_in) (Some m') None
         (Some default_camera_fps) Dataset_init.
Proof.
  apply (ingestion_ignores_camera_order (collab := stand_in) example_model
           (mkNvmModel
              [ mkCamera 0 (0, 0, 0) (mkQuaternion 1 0 0 0);
                mkCamera 30 (1, 0, 0) (mkQuaternion 0 1 0 0);
                mkCamera 90 (3, 0, 0) (mkQuaternion 0 0 1 0) ]
              (points example_model))
           None (Some default_camera_fps) Dataset_init).
  - simpl. repeat (constructor; [simpl; intros H; repeat destruct H as [H|H];
                                  try discriminate; contradiction|]).
    constructor.
  - simpl. apply (Permutation_cons_append
                    [ mkCamera 0 (0, 0, 0) (mkQuaternion 1 0 0 0);
                      mkCamera 30 (1, 0, 0) (mkQuaternion 0 1 0 0) ]
                    (mkCamera 90 (3, 0, 0) (mkQuaternion 0 0 1 0))).
Defined.

Lemma position_from_nvm_times_ascend_witness :
  exists pos tr,
    position_from_nvm (Some example_model) None (Some default_camera_fps) Dataset_init
    = (mkDataset (Some pos) None tr [], Ok tt)
    /\ length (timestamps pos) = 3%nat
    /\ length (values pos) = 3%nat
    /\ StronglySorted Qle (timestamps pos)
    /\ (NoDup (map framenumber (cameras example_model)) ->
        strictly_increasing (timestamps pos)).
Proof.
  apply (position_from_nvm_times_ascend example_model
           default_camera_fps Dataset_init).
  - reflexivity.
  - discriminate.
Defined.

Lemma position_from_nvm_failures_witness :
  position_from_nvm (Some (mkNvmModel [] [])) None (Some default_camera_fps) Dataset_init
  = (Dataset_init, Raise ValueError)
  /\ position_from_nvm (Some example_model) None (Some 0) Dataset_init
     = (Dataset_init, Raise ZeroDivisionError)
  /\ position_from_nvm (Some example_model) None None Dataset_init
     = (Dataset_init, Raise TypeError).
Proof.
  split; [|split].
  - apply (proj1 (position_from_nvm_failures (mkNvmModel [] [])
                    Dataset_init) eq_refl).
  - apply (proj2 (position_from_nvm_failures example_model
                    Dataset_init)); [discriminate|reflexivity].
  - apply (proj2 (position_from_nvm_failures example_model
                    Dataset_init)). discriminate.
Defined.

(** ** Looking landmarks up *)

Lemma vec3_eqb_eq (a b : Vec3) : vec3_eqb a b = true <-> vec3_eq a b.
Proof.
  destruct a as [[a0 a1] a2], b as [[b0 b1] b2]. unfold vec3_eqb, vec3_eq. simpl.
  rewrite !andb_true_iff, !Qeq_bool_iff. tauto.
Qed.

Lemma vec3_eq_refl (a : Vec3) : vec3_eq a a.
Proof. destruct a as [[a0 a1] a2]. unfold vec3_eq. simpl. repeat split; reflexivity. Qed.

(** X19: [find_landmark] returns a landmark of the list that lies at the
    position asked for, and it returns [None] exactly when the list has no
    landmark there (in particular on an empty list). *)
Theorem find_landmark_sound_and_complete (p : Vec3) (lms : list Landmark) :
  (forall lm, find_landmark p lms = Some lm ->
     In lm lms /\ vec3_eq (lm_position lm) p)
  /\ (find_landmark p lms = None <->
      forall lm, In lm lms -> ~ vec3_eq (lm_position lm) p).
Proof.
  assert (E : find_landmark p lms = find (fun lm => vec3_eqb (lm_position lm) p) lms)
    by (destruct lms; reflexivity).
  rewrite E. split.
  - intros lm H. apply find_some in H. destruct H as [Hin Hb].
    split; [exact Hin|now apply vec3_eqb_eq].
  - split.
    + intros H lm Hin Heq. pose proof (find_none _ _ H lm Hin) as Hb.
      apply vec3_eqb_eq in Heq. simpl in Hb. congruence.
    + intros H. destruct (find _ lms) as [lm|] eqn:Ef; [|reflexivity].
      apply find_some in Ef. destruct Ef as [Hin Hb].
      apply vec3_eqb_eq in Hb. now apply H in Hin.
Qed.

(** X20: after [landmarks_from_nvm], every point of the reconstruction is
    found by [find_landmark]: looking up a point's position in the
    dataset's landmarks gives a landmark at that position. *)
Theorem find_landmark_after_ingestion (ds : Dataset) (m : NvmModel) (p : Point) :
  In p (points m) ->
  exists lm,
    find_landmark (point_position p)
      (landmarks (fst (landmarks_from_nvm (Some m) ds))) = Some lm
    /\ vec3_eq (lm_position lm) (point_position p).
Proof.
  intros Hin. rewrite landmarks_from_nvm_eq. cbn [fst landmarks].
  set (lms := landmarks ds ++ map landmark_of (points m)).
  assert (Hl : In (landmark_of p) lms)
    by (unfold lms; apply in_or_app; right; now apply in_map).
  assert (E : find_landmark (point_position p) lms
              = find (fun lm => vec3_eqb (lm_position lm) (point_position p)) lms)
    by (destruct lms; reflexivity).
  rewrite E.
  destruct (find _ lms) as [lm|] eqn:Ef.
  - exists lm. split; [reflexivity|].
    apply find_some in Ef. now apply vec3_eqb_eq.
  - pose proof (find_none _ _ Ef (landmark_of p) Hl) as Hb. simpl in Hb.
    assert (Ht : vec3_eqb (point_position p) (point_position p) = true)
      by (apply vec3_eqb_eq, vec3_eq_refl).
    congruence.
Qed.

Lemma find_landmark_after_ingestion_witness :
  exists lm,
    find_landmark (4, 5, 6)
      (landmarks (fst (landmarks_from_nvm (Some example_model) Dataset_init))) = Some lm
    /\ vec3_eq (lm_position lm) (4, 5, 6).
Proof.
  apply (find_landmark_after_ingestion Dataset_init example_model (mkPoint (4, 5, 6))).
  simpl. right. left. reflexivity.
Defined.

Lemma find_landmark_sound_and_complete_witness :
  In (mkLandmark (1, 2, 3)) [mkLandmark (1, 2, 3); mkLandmark (4, 5, 6)]
  /\ vec3_eq (lm_position (mkLandmark (1, 2, 3))) (2 # 2, 2, 3).
Proof.
  apply (proj1 (find_landmark_sound_and_complete (2 # 2, 2, 3)
                  [mkLandmark (1, 2, 3); mkLandmark (4, 5, 6)])
           (mkLandmark (1, 2, 3))).
  reflexivity.
Defined.

(** ** Ingesting positions twice *)

Section Reingestion.

Context {collab : Collaborators}.

Lemma update_trajectory_with_position (p : TimeSeries Vec3)
    (o : option (TimeSeries Quaternion)) (lms : list Landmark) :
  timestamps p <> [] ->
  exists tr', forall tr,
    _update_trajectory (mkDataset (Some p) o tr lms)
    = (mkDataset (Some p) o (Some tr') lms, Ok tt).
Proof.
  intros Hp. unfold _update_trajectory.
  cbn [bind Method_Monad get _position_data _orientation_data landmarks].
  rewrite (truthy_nonempty p Hp). cbn [andb negb].
  destruct (truthy o) eqn:Eo; cbn [negb].
  - destruct o as [od|]; [|discriminate]. eexists. intros tr. reflexivity.
  - eexists. intros tr. reflexivity.
Qed.

(** X21: position ingestion replaces, it does not accumulate. After a
    successful [position_from_nvm] a second successful one leaves the
    dataset exactly as if only the second had been made: the earlier
    position series and the trajectory built from it are gone (landmarks, in
    contrast, pile up). *)
Theorem position_from_nvm_replaces (m1 m2 : NvmModel) (fps1 fps2 : Q) (ds : Dataset) :
  ~ fps1 == 0 -> cameras m1 <> [] ->
  ~ fps2 == 0 -> cameras m2 <> [] ->
  position_from_nvm (Some m2) None (Some fps2)
    (fst (position_from_nvm (Some m1) None (Some fps1) ds))
  = position_from_nvm (Some m2) None (Some fps2) ds
  /\ snd (position_from_nvm (Some m2) None (Some fps2) ds) = Ok tt.
Proof.
  intros Hz1 Hn1 Hz2 Hn2.
  rewrite (position_from_nvm_eq m1 fps1 ds Hz1 Hn1).
  set (p1 := mkTimeSeries _ (map position (sorted framenumber (cameras m1)))).
  assert (Hp1 : timestamps p1 <> []).
  { unfold p1. cbn [timestamps]. intros E. apply map_eq_nil in E.
    now apply (sorted_not_nil framenumber (cameras m1) Hn1). }
  destruct (update_trajectory_with_position p1 (_orientation_data ds) (landmarks ds) Hp1)
    as [tr1 Htr1].
  rewrite Htr1. cbn [fst].
  rewrite (position_from_nvm_eq m2 fps2 _ Hz2 Hn2).
  rewrite (position_from_nvm_eq m2 fps2 ds Hz2 Hn2).
  cbn [_orientation_data trajectory landmarks].
  set (p2 := mkTimeSeries _ (map position (sorted framenumber (cameras m2)))).
  assert (Hp2 : timestamps p2 <> []).
  { unfold p2. cbn [timestamps]. intros E. apply map_eq_nil in E.
    now apply (sorted_not_nil framenumber (cameras m2) Hn2). }
  destruct (update_trajectory_with_position p2 (_orientation_data ds) (landmarks ds) Hp2)
    as [tr2 Htr2].
  rewrite !Htr2. split; reflexivity.
Qed.

End Reingestion.

Lemma position_from_nvm_replaces_witness :
  let m2 := mkNvmModel [mkCamera 5 (7, 8, 9) (mkQuaternion 1 0 0 0)] [] in
  position_from_nvm (Some m2) None (Some 25)
    (fst (position_from_nvm (Some example_model) None (Some default_camera_fps)
            Dataset_init))
  = position_from_nvm (Some m2) None (Some 25) Dataset_init
  /\ snd (position_from_nvm (Some m2) None (Some 25) Dataset_init) = Ok tt.
Proof.
  apply (position_from_nvm_replaces example_model
           (mkNvmModel [mkCamera 5 (7, 8, 9) (mkQuaternion 1 0 0 0)] [])
           default_camera_fps 25 Dataset_init).
  - intros H. vm_compute in H. discriminate.
  - discriminate.
  - intros H. vm_compute in H. discriminate.
  - discriminate.
Defined.
